(** * AppleBBCH81: YOLO -> COCO conversion and train/val/test splitting

    A shallow embedding of the three scripts of the repository

      - [scripts/generate_splits.py]            (module [Splits])
      - [scripts/convert_to_coco.py]            (module [Coco])
      - [generate_individual_annotations.py]    (module [Individual])

    together with the properties their specification states.

    Conventions of the embedding.
      - Python [int] is [Z]; list indices and lengths are [nat].
      - Python [float] is [Py.float]: a finite double, idealised as an
        exact rational [Q], an infinity or NaN.  Rounding error and the
        finite range of doubles are outside the model; equations between
        finite floats are stated with [==] ([Qeq]).  The ratios of the
        splitter are finite, so they are [Q].
      - [str] is [string]; a directory is a list of named entries (in
        [os.listdir] order), the labels directory a finite map from file
        names to the lines of the file.
      - A raised exception is the [Raise] constructor of [result]; printed
        lines are collected in a log. *)

From Stdlib Require Import ZArith QArith Qabs Qround Lqa String Ascii List.
From stdpp Require Import base list strings sorting gmap.

Local Open Scope string_scope.
Local Open Scope list_scope.
Local Open Scope Z_scope.

(** ** Exceptions and results *)

Inductive exn : Type :=
  | ValueError (msg : string)
  | IndexError
  | OverflowError (msg : string)
  | FileNotFoundError (file : string)
  | UnidentifiedImageError (file : string).

Inductive result (A : Type) : Type :=
  | Ok (a : A)
  | Raise (e : exn).
Arguments Ok {A} a.
Arguments Raise {A} e.

(** Sequencing: the first exception raised ends the computation.  With
    these instances [x ← m; k] reads as Python's statement order. *)
#[global] Instance result_ret : MRet result := fun A a => Ok a.
#[global] Instance result_bind : MBind result := fun A B k m =>
  match m with
  | Ok a => k a
  | Raise e => Raise e
  end.

(** ** Python built-ins used by the scripts *)

Module Py.

(** [PySlice_AdjustIndices] for a step of 1: a negative bound counts from
    the end, and both bounds are clamped to [0, len]. *)
Definition adjust_index (len i : Z) : Z :=
  if i <? 0 then Z.max 0 (i + len) else Z.min i len.

(** [l[lo:hi]], where [None] is an omitted bound. *)
Definition slice {A} (lo hi : option Z) (l : list A) : list A :=
  let n := Z.of_nat (length l) in
  let start := match lo with None => 0 | Some i => adjust_index n i end in
  let stop := match hi with None => n | Some i => adjust_index n i end in
  take (Z.to_nat (stop - start)) (drop (Z.to_nat start) l).

(** [round(x)] of a finite float without [ndigits]: the nearest integer,
    ties to the even one.  [x] is the exact product [n * ratio]; a product
    beyond the range of a double, where the source raises [OverflowError],
    takes a ratio beyond any share of a whole and is outside the model. *)
Definition round (x : Q) : Z :=
  let f := Qfloor x in
  match Qcompare (x - inject_Z f) (1 # 2) with
  | Lt => f
  | Gt => f + 1
  | Eq => if Z.even f then f else f + 1
  end.

(** [abs(x) > y] on floats. *)
Definition abs_gt (x y : Q) : bool :=
  match Qcompare (Qabs x) y with Gt => true | _ => false end.

(** [x[i], x[j] = x[j], x[i]]: the right-hand side is read first (an index
    out of range raises), then the two stores happen left to right. *)
Definition swap {A} (i j : nat) (x : list A) : result (list A) :=
  match x !! j, x !! i with
  | Some xj, Some xi => Ok (<[j:=xi]> (<[i:=xj]> x))
  | _, _ => Raise IndexError
  end.

(** White space among the first 256 code points, as [str.strip] and
    [str.split] without argument see it: TAB to CR, FS to US, the blank,
    NEL (U+0085) and the no-break space (U+00A0). *)
Definition is_space (c : ascii) : bool :=
  let n := nat_of_ascii c in
  ((9 <=? n)%nat && (n <=? 13)%nat) || ((28 <=? n)%nat && (n <=? 32)%nat)
  || (n =? 133)%nat || (n =? 160)%nat.

Fixpoint lstrip (s : string) : string :=
  match s with
  | String c s' => if is_space c then lstrip s' else s
  | EmptyString => EmptyString
  end.

(** [s.rstrip()]: a white-space character is dropped when all that follows
    it has been dropped. *)
Fixpoint rstrip (s : string) : string :=
  match s with
  | EmptyString => EmptyString
  | String c s' =>
      match rstrip s' with
      | EmptyString => if is_space c then EmptyString else String c EmptyString
      | r => String c r
      end
  end.

Definition strip (s : string) : string := rstrip (lstrip s).

(** [s.split()]: maximal runs of non-space characters.  [cur] is the token
    being read, in reverse. *)
Fixpoint split_go (cur : list ascii) (s : string) : list string :=
  let flush (rest : list string) :=
    match cur with
    | [] => rest
    | _ => string_of_list_ascii (rev cur) :: rest
    end in
  match s with
  | EmptyString => flush []
  | String c s' =>
      if is_space c then flush (split_go [] s') else split_go (c :: cur) s'
  end.

Definition split (s : string) : list string := split_go [] s.

(** [s.endswith(suffix)] *)
Definition endswith (s suffix : string) : bool :=
  let n := String.length s in
  let k := String.length suffix in
  (k <=? n)%nat && String.eqb (substring (n - k) k s) suffix.

(** [s.rfind(".")], as an index, or [None] for -1. *)
Fixpoint rfind_dot (s : string) : option nat :=
  match s with
  | EmptyString => None
  | String c s' =>
      match rfind_dot s' with
      | Some i => Some (S i)
      | None => if Ascii.eqb c "." then Some 0%nat else None
      end
  end.

(** [PurePath.stem]: the name without its last suffix; a name whose only
    dot is the first or the last character has no suffix. *)
Definition stem (name : string) : string :=
  match rfind_dot name with
  | Some i =>
      if (0 <? i)%nat && (i <? String.length name - 1)%nat
      then substring 0 i name
      else name
  | None => name
  end.

(** [os.path.splitext(name)[0]] for a bare file name: the extension starts
    at the last dot that has a non-dot character somewhere before it. *)
Fixpoint all_dots (s : string) : bool :=
  match s with
  | EmptyString => true
  | String c s' => Ascii.eqb c "." && all_dots s'
  end.

Definition splitext_root (name : string) : string :=
  match rfind_dot name with
  | Some i => if all_dots (substring 0 i name) then name else substring 0 i name
  | None => name
  end.

(** [s.lower()] on ASCII. *)
Definition lower_ascii (c : ascii) : ascii :=
  let n := nat_of_ascii c in
  if (65 <=? n)%nat && (n <=? 90)%nat then ascii_of_nat (n + 32) else c.

Fixpoint lower (s : string) : string :=
  match s with
  | EmptyString => EmptyString
  | String c s' => String (lower_ascii c) (lower s')
  end.

(** [sorted(l)] on strings: a stable sort by code points.  Insertion from
    the right keeps equal keys in their order. *)
Fixpoint insert_sorted (x : string) (l : list string) : list string :=
  match l with
  | [] => [x]
  | y :: l' => if String.leb x y then x :: l else y :: insert_sorted x l'
  end.

Fixpoint sorted (l : list string) : list string :=
  match l with
  | [] => []
  | x :: l' => insert_sorted x (sorted l')
  end.

(** A Python [float]: a finite value, an infinity with its sign, or NaN. *)
Inductive float : Type :=
  | Finite (q : Q)
  | Inf (negative : bool)
  | NaN.

Definition is_zero (q : Q) : bool := Qeq_bool q 0.
Definition is_negative (q : Q) : bool :=
  match Qcompare q 0 with Lt => true | _ => false end.

(** [x * y] on floats: an infinity times zero is NaN. *)
Definition fmul (x y : float) : float :=
  match x, y with
  | NaN, _ | _, NaN => NaN
  | Finite a, Finite b => Finite (a * b)
  | Inf s, Finite b | Finite b, Inf s =>
      if is_zero b then NaN else Inf (xorb s (is_negative b))
  | Inf s, Inf t => Inf (xorb s t)
  end.

(** [x * n] for an [int] [n], which is converted to a float first. *)
Definition fmul_int (x : float) (n : Z) : float := fmul x (Finite (inject_Z n)).

(** [x - y] on floats: the difference of two like infinities is NaN. *)
Definition fsub (x y : float) : float :=
  match x, y with
  | NaN, _ | _, NaN => NaN
  | Finite a, Finite b => Finite (a - b)
  | Inf s, Finite _ => Inf s
  | Finite _, Inf t => Inf (negb t)
  | Inf s, Inf t => if Bool.eqb s t then NaN else Inf s
  end.

(** [x / 2.0] *)
Definition fhalf (x : float) : float :=
  match x with
  | Finite a => Finite (a / 2)
  | Inf s => Inf s
  | NaN => NaN
  end.

(** [int(x)] of a float: truncation towards zero; an infinity raises
    [OverflowError] and NaN raises [ValueError]. *)
Definition int_of_float (x : float) : result Z :=
  match x with
  | Finite q => Ok (Z.quot (Qnum q) (Zpos (Qden q)))
  | Inf _ => Raise (OverflowError "cannot convert float infinity to integer")
  | NaN => Raise (ValueError "cannot convert float NaN to integer")
  end.

(** [os.path.join(a, b)] on POSIX: an absolute [b] stands alone, and a
    separator is put in unless [a] is empty or ends with one. *)
Definition path_join (a b : string) : string :=
  match b with
  | String "/" _ => b
  | _ =>
      if String.eqb a "" || String.eqb (substring (String.length a - 1) 1 a) "/"
      then a +:+ b
      else a +:+ "/" +:+ b
  end.

(** ["\n".join(rows)] *)
Definition join_lines (rows : list string) : string :=
  String.concat (String "010" EmptyString) rows.

(** The line boundaries of [str.splitlines] among the first 256 code
    points: LF, VT, FF, CR, FS, GS, RS and NEL. *)
Definition is_linebreak (c : ascii) : bool :=
  let n := nat_of_ascii c in
  ((10 <=? n)%nat && (n <=? 13)%nat) || ((28 <=? n)%nat && (n <=? 30)%nat)
  || (n =? 133)%nat.

Fixpoint has_linebreak (s : string) : bool :=
  match s with
  | EmptyString => false
  | String c s' => is_linebreak c || has_linebreak s'
  end.

(** [s.splitlines()]: the text between line boundaries, CR LF counting as
    one boundary; what follows the last boundary is a line only when it is
    not empty.  [cur] is the line being read, in reverse. *)
Fixpoint splitlines_go (cur : list ascii) (s : string) : list string :=
  match s with
  | EmptyString =>
      match cur with
      | [] => []
      | _ => [string_of_list_ascii (rev cur)]
      end
  | String c s' =>
      if is_linebreak c then
        string_of_list_ascii (rev cur) ::
          (if Ascii.eqb c "013" then
             match s' with
             | String c2 s'' =>
                 if Ascii.eqb c2 "010" then splitlines_go [] s''
                 else splitlines_go [] s'
             | EmptyString => splitlines_go [] s'
             end
           else splitlines_go [] s')
      else splitlines_go (c :: cur) s'
  end.

Definition splitlines (s : string) : list string := splitlines_go [] s.

End Py.

(** ** scripts/generate_splits.py *)

Module Splits.

(** What [main] leaves behind: the files written, in order, each with its
    content, and the exception that ended the run, if any. *)
Record outcome : Type := {
  written : list (string * string);
  raised : option exn
}.

(** [_collect_image_stems]: [listing] is the content of [images_dir];
    [glob("*.jpg")] keeps the names ending in [.jpg]. *)
Definition _collect_image_stems (listing : list string) : list string :=
  Py.sorted (map Py.stem (List.filter (fun p => Py.endswith p ".jpg") listing)).

(** [_write_list]: the file written and its content. *)
Definition _write_list (path : string) (rows : list string) : string * string :=
  (path, Py.join_lines rows +:+ String "010" EmptyString).

Section Generator.

(** The class [random.Random] of the Python library: the state of a
    generator, the state [Random(seed)] starts in, and [_randbelow]. *)
Variable rng_state : Type.
Variable seed_rng : Z -> rng_state.
Variable randbelow : rng_state -> nat -> nat * rng_state.

(** The contract of [_randbelow]: a number below its argument. *)
Definition below_bound : Prop :=
  forall s (k : nat), (0 < k)%nat -> (fst (randbelow s k) < k)%nat.

(** [Random.shuffle(x)]:
    [for i in reversed(range(1, len(x))): j = randbelow(i + 1); swap]. *)
Fixpoint shuffle_from {A} (i : nat) (s : rng_state) (x : list A)
  : result (list A * rng_state) :=
  match i with
  | O => Ok (x, s)
  | S i' =>
      let (j, s') := randbelow s (S i) in
      x' ← Py.swap i j x;
      shuffle_from i' s' x'
  end.

Definition shuffle {A} (s : rng_state) (x : list A) : result (list A * rng_state) :=
  shuffle_from (length x - 1) s x.

(** [_split_stems].  [g] is the state of the generator shared by the
    whole process (the one behind [random.random()]); the function
    builds a private [random.Random(seed)] and hands [g] back as it
    found it. *)
Definition _split_stems (g : rng_state) (stems : list string)
    (train_ratio val_ratio test_ratio : Q) (seed : Z)
  : result (list string * list string * list string) * rng_state :=
  (if Py.abs_gt ((train_ratio + val_ratio + test_ratio) - 1) (1 # 1000000)
   then Raise (ValueError "train+val+test ratios must sum to 1.0")
   else
     let rng := seed_rng seed in
     '(shuffled, _) ← shuffle rng stems;
     let n := Z.of_nat (length shuffled) in
     let n_train := Py.round (inject_Z n * train_ratio) in
     let n_val := Py.round (inject_Z n * val_ratio) in
     let train := Py.slice None (Some n_train) shuffled in
     let val := Py.slice (Some n_train) (Some (n_train + n_val)) shuffled in
     let test := Py.slice (Some (n_train + n_val)) None shuffled in
     Ok (train, val, test),
   g).

(** [main], after argument parsing: [listing] is the content of
    [--images], the file names are relative to [--out]. *)
Definition main (g : rng_state) (listing : list string)
    (train_ratio val_ratio test_ratio : Q) (seed : Z) : outcome * rng_state :=
  let stems := _collect_image_stems listing in
  let (r, g') := _split_stems g stems train_ratio val_ratio test_ratio seed in
  match r with
  | Raise e => ({| written := []; raised := Some e |}, g')
  | Ok (train, val, test) =>
      ({| written := [ _write_list "train.txt" train;
                       _write_list "val.txt" val;
                       _write_list "test.txt" test;
                       _write_list "train_val.txt" (train ++ val);
                       _write_list "all.txt" stems ];
          raised := None |}, g')
  end.

End Generator.

Arguments below_bound {rng_state} randbelow.
Arguments shuffle_from {rng_state} randbelow {A} i s x.
Arguments shuffle {rng_state} randbelow {A} s x.
Arguments _split_stems {rng_state} seed_rng randbelow g stems _ _ _ seed.
Arguments main {rng_state} seed_rng randbelow g listing _ _ _ seed.

(** A small concrete generator (a linear congruential one), to run the
    definitions on examples. *)
Module Lcg.
Definition seed_rng (seed : Z) : Z := seed mod 2147483648.
Definition randbelow (s : Z) (k : nat) : nat * Z :=
  (Z.to_nat (s mod Z.of_nat k), (s * 1103515245 + 12345) mod 2147483648).
End Lcg.

End Splits.


(** ** The file system the converters read *)

(** An image file: the size PIL decodes from it ([None] when [Image.open]
    fails on the file) and its length in bytes. *)
Record image_file : Type := {
  decoded_size : option (Z * Z);
  byte_size : Z
}.

(** A directory in [os.listdir] order. *)
Fixpoint dir_lookup {V} (name : string) (dir : list (string * V)) : option V :=
  match dir with
  | [] => None
  | (n, v) :: dir' => if String.eqb n name then Some v else dir_lookup name dir'
  end.

(** ** scripts/convert_to_coco.py *)

Module Coco.

Module CocoImage.
Record t : Type := {
  id : Z;
  file_name : string;
  width : Z;
  height : Z;
  license : Z;
  date_captured : string
}.
End CocoImage.

Module CocoAnnotation.
Record t : Type := {
  id : Z;
  image_id : Z;
  category_id : Z;
  bbox : list Py.float;
  area : Py.float;
  iscrowd : Z;
  segmentation : option (list (list Py.float))
}.
End CocoAnnotation.

(** An entry of ["annotations"] as it is dumped. *)
Module AnnotationDict.
Record t : Type := {
  id : Z;
  image_id : Z;
  category_id : Z;
  bbox : list Py.float;
  area : Py.float;
  iscrowd : Z;
  segmentation : list (list Py.float)
}.
End AnnotationDict.

Record category : Type := {
  category_id : Z;
  category_name : string;
  supercategory : string
}.

Record licence : Type := {
  licence_id : Z;
  licence_name : string;
  licence_url : string
}.

Record info : Type := {
  description : string;
  version : string;
  year : Z;
  contributor : string;
  date_created : string;
  url : string
}.

(** The dictionary [coco] that is serialised. *)
Record coco : Type := {
  coco_info : info;
  licenses : list licence;
  images : list CocoImage.t;
  annotations : list AnnotationDict.t;
  categories : list category
}.

Inductive message : Type :=
  | Found (n : nat)
  | Saved (n_images n_annotations : nat) (out_json : string).

(** One call of [convert_to_coco]: the lines printed, the document
    written to [out_json] (if the call got that far) and the exception
    that left the call, if any. *)
Record run : Type := {
  printed : list message;
  written : option (string * coco);
  raised : option exn
}.

(** [_read_split_file]: [split_dir] maps a file name to its lines. *)
Definition _read_split_file (split_dir : gmap string (list string)) (path : string)
  : list string :=
  match split_dir !! path with
  | None => []
  | Some lines =>
      map Py.strip (List.filter (fun line => negb (String.eqb (Py.strip line) "")) lines)
  end.

(** [_image_size] *)
Definition _image_size (images_dir : list (string * image_file)) (image_path : string)
  : result (Z * Z) :=
  match dir_lookup image_path images_dir with
  | None => Raise (FileNotFoundError image_path)
  | Some f =>
      match decoded_size f with
      | Some (w, h) => Ok (w, h)
      | None => Raise (UnidentifiedImageError image_path)
      end
  end.

(** [_yolo_to_coco_bbox] *)
Definition _yolo_to_coco_bbox (xc yc w h : Py.float) (width_px height_px : Z)
  : Py.float * Py.float * Py.float * Py.float :=
  let width := Py.fmul_int w width_px in
  let height := Py.fmul_int h height_px in
  let x := Py.fsub (Py.fmul_int xc width_px) (Py.fhalf width) in
  let y := Py.fsub (Py.fmul_int yc height_px) (Py.fhalf height) in
  (x, y, width, height).

(** [_build_coco_dict] *)
Definition _build_coco_dict : coco := {|
  coco_info := {|
    description := "AppleBBCH81 Dataset - Apple fruit images for object detection";
    version := "1.0";
    year := 2024;
    contributor := "Project LZP";
    date_created := "2024-04-12";
    url := "" |};
  licenses := [ {| licence_id := 1; licence_name := "CC BY 4.0";
                   licence_url := "https://creativecommons.org/licenses/by/4.0/" |} ];
  images := [];
  annotations := [];
  categories := [ {| category_id := 1; category_name := "apple";
                     supercategory := "fruit" |} ]
|}.

(** [_collect_image_paths]: a path is the name of an entry of
    [images_dir]; [None] is Python's [None]. *)
Definition _collect_image_paths (images_dir : list (string * image_file))
    (stems : option (list string)) : list string :=
  let candidates :=
    Py.sorted (List.filter (fun p => Py.endswith p ".jpg") (map fst images_dir)) in
  match stems with
  | None => candidates
  | Some stems =>
      let stem_set : gset string := list_to_set stems in
      List.filter (fun p => bool_decide (Py.stem p ∈ stem_set)) candidates
  end.

Section Parsing.

(** The built-in [float(s)] on a string: [None] when it raises
    [ValueError]. *)
Variable float_of_str : string -> option Py.float.

(** The body of the loop of [_read_yolo_labels] on one line: the row to
    append, [Ok None] where the loop goes on to the next line (a blank
    line, a wrong number of tokens, a [ValueError] caught by the handler),
    or the exception the handler does not catch: [int] of an infinite
    class. *)
Definition parse_row (raw : string)
  : result (option (Z * Py.float * Py.float * Py.float * Py.float)) :=
  let raw := Py.strip raw in
  if String.eqb raw "" then Ok None
  else
    match Py.split raw with
    | [p0; p1; p2; p3; p4] =>
        match float_of_str p0 with
        | None => Ok None
        | Some c =>
            match Py.int_of_float c with
            | Raise (ValueError _) => Ok None
            | Raise e => Raise e
            | Ok cls =>
                match float_of_str p1 with
                | None => Ok None
                | Some xc =>
                    match float_of_str p2 with
                    | None => Ok None
                    | Some yc =>
                        match float_of_str p3 with
                        | None => Ok None
                        | Some w =>
                            match float_of_str p4 with
                            | None => Ok None
                            | Some h => Ok (Some (cls, xc, yc, w, h))
                            end
                        end
                    end
                end
            end
        end
    | _ => Ok None
    end.

(** The loop [for raw in ...splitlines()] of [_read_yolo_labels]. *)
Fixpoint read_rows (lines : list string)
    (rows : list (Z * Py.float * Py.float * Py.float * Py.float))
  : result (list (Z * Py.float * Py.float * Py.float * Py.float)) :=
  match lines with
  | [] => Ok rows
  | raw :: rest =>
      r ← parse_row raw;
      match r with
      | Some row => read_rows rest (rows ++ [row])
      | None => read_rows rest rows
      end
  end.

(** [_read_yolo_labels] *)
Definition _read_yolo_labels (labels_dir : gmap string (list string))
    (label_path : string)
  : result (list (Z * Py.float * Py.float * Py.float * Py.float)) :=
  match labels_dir !! label_path with
  | None => Ok []
  | Some lines => read_rows lines []
  end.

(** The inner loop of [convert_to_coco], over the rows of one image. *)
Definition convert_rows (img_id width height : Z)
    (rows : list (Z * Py.float * Py.float * Py.float * Py.float))
    (annotations : list CocoAnnotation.t) (next_ann_id : Z)
  : list CocoAnnotation.t * Z :=
  foldl (fun '(annotations, next_ann_id) '(cls, xc, yc, w, h) =>
           let category_id := 1 in
           let '(x, y, ww, hh) := _yolo_to_coco_bbox xc yc w h width height in
           (annotations ++
              [ {| CocoAnnotation.id := next_ann_id;
                   CocoAnnotation.image_id := img_id;
                   CocoAnnotation.category_id := category_id;
                   CocoAnnotation.bbox := [x; y; ww; hh];
                   CocoAnnotation.area := Py.fmul ww hh;
                   CocoAnnotation.iscrowd := 0;
                   CocoAnnotation.segmentation := Some [] |} ],
            next_ann_id + 1))
        (annotations, next_ann_id) rows.

(** The outer loop, [for img_id, path in enumerate(image_paths, start=1)],
    from [img_id] on. *)
Fixpoint convert_images (images_dir : list (string * image_file))
    (labels_dir : gmap string (list string))
    (image_paths : list string) (img_id : Z)
    (images : list CocoImage.t) (annotations : list CocoAnnotation.t)
    (next_ann_id : Z)
  : result (list CocoImage.t * list CocoAnnotation.t) :=
  match image_paths with
  | [] => Ok (images, annotations)
  | path :: rest =>
      '(width, height) ← _image_size images_dir path;
      let images :=
        images ++ [ {| CocoImage.id := img_id;
                       CocoImage.file_name := path;
                       CocoImage.width := width;
                       CocoImage.height := height;
                       CocoImage.license := 1;
                       CocoImage.date_captured := "2024-04-12" |} ] in
      let lbl := Py.stem path +:+ ".txt" in
      rows ← _read_yolo_labels labels_dir lbl;
      let '(annotations, next_ann_id) :=
        convert_rows img_id width height rows annotations next_ann_id in
      convert_images images_dir labels_dir rest (img_id + 1)
        images annotations next_ann_id
  end.

Definition dump_annotation (ann : CocoAnnotation.t) : AnnotationDict.t := {|
  AnnotationDict.id := CocoAnnotation.id ann;
  AnnotationDict.image_id := CocoAnnotation.image_id ann;
  AnnotationDict.category_id := CocoAnnotation.category_id ann;
  AnnotationDict.bbox := CocoAnnotation.bbox ann;
  AnnotationDict.area := CocoAnnotation.area ann;
  AnnotationDict.iscrowd := CocoAnnotation.iscrowd ann;
  AnnotationDict.segmentation :=
    match CocoAnnotation.segmentation ann with
    | Some s => s
    | None => []
    end
|}.

(** [convert_to_coco] *)
Definition convert_to_coco (images_dir : list (string * image_file))
    (labels_dir : gmap string (list string)) (out_json : string)
    (stems : option (list string)) : run :=
  let coco := _build_coco_dict in
  let image_paths := _collect_image_paths images_dir stems in
  let found := Found (length image_paths) in
  match convert_images images_dir labels_dir image_paths 1 [] [] 1 with
  | Raise e => {| printed := [found]; written := None; raised := Some e |}
  | Ok (images_, annotations_) =>
      let coco := {|
        coco_info := coco_info coco;
        licenses := licenses coco;
        images := images_;
        annotations := map dump_annotation annotations_;
        categories := categories coco |} in
      {| printed := [found; Saved (length images_) (length annotations_) out_json];
         written := Some (out_json, coco);
         raised := None |}
  end.

(** [main], after argument parsing: one call of [convert_to_coco] per
    requested split, or one for all images; the first call that raises
    ends the program. *)
Fixpoint convert_splits (images_dir : list (string * image_file))
    (labels_dir split_dir : gmap string (list string))
    (splits : list string) : list run :=
  match splits with
  | [] => []
  | split :: rest =>
      let stems := _read_split_file split_dir (split +:+ ".txt") in
      let out_path := "applebbch81_instances_" +:+ split +:+ ".json" in
      let r := convert_to_coco images_dir labels_dir out_path (Some stems) in
      match raised r with
      | Some _ => [r]
      | None => r :: convert_splits images_dir labels_dir split_dir rest
      end
  end.

Definition main (images_dir : list (string * image_file))
    (labels_dir split_dir : gmap string (list string))
    (splits : list string) : list run :=
  match splits with
  | _ :: _ => convert_splits images_dir labels_dir split_dir splits
  | [] =>
      [ convert_to_coco images_dir labels_dir "applebbch81_instances_all.json" None ]
  end.

End Parsing.

End Coco.

(** ** generate_individual_annotations.py *)

Module Individual.

(** The dictionary [get_image_info] returns. *)
Module ImageInfo.
Record t : Type := {
  width : Z;
  height : Z;
  size : Z;
  format : string
}.
End ImageInfo.

(** The dictionaries [read_yolo_annotations] collects. *)
Module YoloAnn.
Record t : Type := {
  class_id : Z;
  center_x : Py.float;
  center_y : Py.float;
  width : Py.float;
  height : Py.float
}.
End YoloAnn.

(** [create_annotation_template] *)
Module Annotation.
Record t : Type := {
  id : Z;
  image_id : Z;
  category_id : Z;
  segmentation : list (list Py.float);
  area : Py.float;
  bbox : list Py.float
}.
End Annotation.

Module ImageEntry.
Record t : Type := {
  id : Z;
  width : Z;
  height : Z;
  file_name : string;
  size : Z;
  format : string;
  url : string;
  hash : string;
  status : string
}.
End ImageEntry.

Module Category.
Record t : Type := {
  id : Z;
  name : string;
  supercategory : string
}.
End Category.

Record info : Type := {
  description : string;
  version : string;
  year : Z;
  contributor : string;
  source : string;
  license_name : string;
  license_url : string
}.

(** The dictionary [template] that is serialised. *)
Record template : Type := {
  template_info : info;
  images : list ImageEntry.t;
  annotations : list Annotation.t;
  categories : list Category.t
}.

Inductive message : Type :=
  | ErrorReadingImage (image_path : string)
  | ErrorReadingLabel (label_file_path : string)
  | WarningLabelNotFound (image_file : string)
  | Generated (output_path : string) (n_annotations : nat)
  | FoundImages (n : nat)
  | Processing (i n : nat) (image_file : string)
  | ErrorProcessing (image_file : string)
  | Completed (n : nat).

(** [get_image_info]: the dictionary returned, or the exception that
    leaves the function, and the lines printed.  When the file cannot be
    opened at all, [os.path.getsize] in the handler raises in turn. *)
Definition get_image_info (images_dir : list (string * image_file))
    (image_path : string) : result ImageInfo.t * list message :=
  match dir_lookup image_path images_dir with
  | None => (Raise (FileNotFoundError image_path), [ErrorReadingImage image_path])
  | Some f =>
      match decoded_size f with
      | Some (width, height) =>
          (Ok {| ImageInfo.width := width;
                 ImageInfo.height := height;
                 ImageInfo.size := byte_size f;
                 ImageInfo.format := "JPEG" |}, [])
      | None =>
          (Ok {| ImageInfo.width := 640;
                 ImageInfo.height := 640;
                 ImageInfo.size := byte_size f;
                 ImageInfo.format := "JPEG" |}, [ErrorReadingImage image_path])
      end
  end.

(** [yolo_to_coco_bbox]; [yolo_bbox] is the four-element list the caller
    builds. *)
Definition yolo_to_coco_bbox (yolo_bbox : Py.float * Py.float * Py.float * Py.float)
    (img_width img_height : Z) : list Py.float :=
  let '(center_x, center_y, width, height) := yolo_bbox in
  let x := Py.fmul_int center_x img_width in
  let y := Py.fmul_int center_y img_height in
  let w := Py.fmul_int width img_width in
  let h := Py.fmul_int height img_height in
  [x; y; w; h].

(** [coco_bbox[i]] on a list that has the index. *)
Definition item (l : list Py.float) (i : nat) : Py.float := nth i l (Py.Finite 0).

Section Parsing.

(** The built-ins [float(s)] and [int(s)] on a string: [None] when they
    raise [ValueError]. *)
Variable float_of_str : string -> option Py.float.
Variable int_of_str : string -> option Z.

(** The body of the loop of [read_yolo_annotations] on one line: the
    dictionary to append ([Ok None] where nothing is appended), or the
    exception a conversion raises. *)
Definition parse_line (line : string) : result (option YoloAnn.t) :=
  let line := Py.strip line in
  if String.eqb line "" then Ok None
  else
    match Py.split line with
    | [p0; p1; p2; p3; p4] =>
        match int_of_str p0, float_of_str p1, float_of_str p2,
              float_of_str p3, float_of_str p4 with
        | Some class_id, Some center_x, Some center_y, Some width, Some height =>
            Ok (Some {| YoloAnn.class_id := class_id;
                        YoloAnn.center_x := center_x;
                        YoloAnn.center_y := center_y;
                        YoloAnn.width := width;
                        YoloAnn.height := height |})
        | _, _, _, _, _ => Raise (ValueError "invalid literal")
        end
    | _ => Ok None
    end.

(** The [for line in f] loop inside the [try]: an exception leaves the
    loop, and the handler prints and keeps what was appended so far. *)
Fixpoint read_lines (label_file_path : string) (lines : list string)
    (annotations : list YoloAnn.t) : list YoloAnn.t * list message :=
  match lines with
  | [] => (annotations, [])
  | line :: rest =>
      match parse_line line with
      | Ok (Some a) => read_lines label_file_path rest (annotations ++ [a])
      | Ok None => read_lines label_file_path rest annotations
      | Raise _ => (annotations, [ErrorReadingLabel label_file_path])
      end
  end.

(** [read_yolo_annotations] *)
Definition read_yolo_annotations (labels_dir : gmap string (list string))
    (label_file_path : string) : list YoloAnn.t * list message :=
  match labels_dir !! label_file_path with
  | None => ([], [ErrorReadingLabel label_file_path])
  | Some lines => read_lines label_file_path lines []
  end.

Section World.

(** What the identifiers are drawn from: the process-wide generator
    behind [random.randint] and the clock behind [time.time];
    [time_ms] is [int(time.time() * 1000)]. *)
Variable world : Type.
Variable randint : Z -> Z -> world -> Z * world.
Variable time_ms : world -> Z * world.

(** [generate_unique_id] *)
Definition generate_unique_id (w : world) : Z * world :=
  let (random_part, w) := randint 1000000 9999999 w in
  let (t, w) := time_ms w in
  let timestamp := t mod 1000 in
  let unique_id := random_part * 1000 + timestamp in
  (unique_id, w).

(** [create_annotation_template] *)
Definition create_annotation_template (image_id category_id : Z)
    (bbox : list Py.float) (area : Py.float) (w : world) : Annotation.t * world :=
  let (id, w) := generate_unique_id w in
  ({| Annotation.id := id;
      Annotation.image_id := image_id;
      Annotation.category_id := category_id;
      Annotation.segmentation := [];
      Annotation.area := area;
      Annotation.bbox := bbox |}, w).

(** The loop [for yolo_ann in yolo_annotations] of
    [generate_individual_json]. *)
Definition convert_annotations (image_info : ImageInfo.t)
    (image_id category_id : Z) (yolo_annotations : list YoloAnn.t)
    (w : world) : list Annotation.t * world :=
  foldl (fun '(annotations, w) yolo_ann =>
           let yolo_bbox := (YoloAnn.center_x yolo_ann, YoloAnn.center_y yolo_ann,
                             YoloAnn.width yolo_ann, YoloAnn.height yolo_ann) in
           let coco_bbox :=
             yolo_to_coco_bbox yolo_bbox (ImageInfo.width image_info)
               (ImageInfo.height image_info) in
           let area := Py.fmul (item coco_bbox 2) (item coco_bbox 3) in
           let (annotation, w) :=
             create_annotation_template image_id category_id coco_bbox area w in
           (annotations ++ [annotation], w))
        ([], w) yolo_annotations.

(** One call of [generate_individual_json]: the file written with its
    content, or the exception that leaves the call; the lines printed;
    the world afterwards. *)
Definition generate_individual_json (images_dir : list (string * image_file))
    (labels_dir : gmap string (list string)) (image_file output_dir : string)
    (w : world) : result (string * template) * list message * world :=
  let image_path := image_file in
  match get_image_info images_dir image_path with
  | (Raise e, log) => (Raise e, log, w)
  | (Ok image_info, log) =>
      let (image_id, w) := generate_unique_id w in
      let (category_id, w) := generate_unique_id w in
      let label_filename := Py.splitext_root image_file +:+ ".txt" in
      let label_path := label_filename in
      let '(annotations_, log2, w) :=
        match labels_dir !! label_path with
        | Some _ =>
            let (yolo_annotations, log1) :=
              read_yolo_annotations labels_dir label_path in
            let (anns, w) :=
              convert_annotations image_info image_id category_id
                yolo_annotations w in
            (anns, log1, w)
        | None => ([], [WarningLabelNotFound image_file], w)
        end in
      let template := {|
        template_info := {|
          description := "data";
          version := "1.0";
          year := 2025;
          contributor := "search engine";
          source := "augmented";
          license_name := "Creative Commons Attribution 4.0 International";
          license_url := "https://creativecommons.org/licenses/by/4.0/" |};
        images := [ {| ImageEntry.id := image_id;
                       ImageEntry.width := ImageInfo.width image_info;
                       ImageEntry.height := ImageInfo.height image_info;
                       ImageEntry.file_name := image_file;
                       ImageEntry.size := ImageInfo.size image_info;
                       ImageEntry.format := ImageInfo.format image_info;
                       ImageEntry.url := "";
                       ImageEntry.hash := "";
                       ImageEntry.status := "success" |} ];
        annotations := annotations_;
        categories := [ {| Category.id := category_id;
                           Category.name := "AppleBBCH81";
                           Category.supercategory := "apple" |} ]
      |} in
      let json_filename := Py.splitext_root image_file +:+ ".json" in
      let output_path := Py.path_join output_dir json_filename in
      (Ok (output_path, template),
       log ++ log2 ++ [Generated output_path (length annotations_)],
       w)
  end.

(** What [main] leaves behind. *)
Record outcome : Type := {
  printed : list message;
  written : list (string * template)
}.

(** [f.lower().endswith(('.jpg', '.jpeg', '.png'))] *)
Definition is_image_name (f : string) : bool :=
  let f := Py.lower f in
  Py.endswith f ".jpg" || Py.endswith f ".jpeg" || Py.endswith f ".png".

(** The loop of [main]: [for i, image_file in enumerate(image_files, 1)]
    with its [try]/[except] around each image. *)
Fixpoint process_images (images_dir : list (string * image_file))
    (labels_dir : gmap string (list string)) (output_dir : string)
    (n : nat) (i : nat) (image_files : list string) (w : world)
  : outcome * world :=
  match image_files with
  | [] => ({| printed := []; written := [] |}, w)
  | image_file :: rest =>
      let '(r, log, w) :=
        generate_individual_json images_dir labels_dir image_file output_dir w in
      let (o, w) :=
        process_images images_dir labels_dir output_dir n (S i) rest w in
      match r with
      | Ok file =>
          ({| printed := Processing i n image_file :: log ++ printed o;
              written := file :: written o |}, w)
      | Raise _ =>
          ({| printed := Processing i n image_file :: log
                           ++ ErrorProcessing image_file :: printed o;
              written := written o |}, w)
      end
  end.

(** The files announced by the [Processing] lines, in order. *)
Definition processed_files (log : list message) : list string :=
  omap (fun m => match m with
                 | Processing _ _ image_file => Some image_file
                 | _ => None
                 end) log.

(** [main] *)
Definition main (images_dir : list (string * image_file))
    (labels_dir : gmap string (list string)) (w : world) : outcome * world :=
  let output_dir := "data/images" in
  let image_files := List.filter is_image_name (map fst images_dir) in
  let n := length image_files in
  let (o, w) := process_images images_dir labels_dir output_dir n 1 image_files w in
  ({| printed := FoundImages n :: printed o ++ [Completed n];
      written := written o |}, w).

End World.

End Parsing.

End Individual.

Arguments Individual.generate_unique_id {world} randint time_ms w.
Arguments Individual.create_annotation_template {world} randint time_ms _ _ _ _ w.
Arguments Individual.convert_annotations {world} randint time_ms _ _ _ _ w.
Arguments Individual.generate_individual_json
  float_of_str int_of_str {world} randint time_ms images_dir labels_dir _ _ w.
Arguments Individual.process_images
  float_of_str int_of_str {world} randint time_ms images_dir labels_dir _ n i _ w.
Arguments Individual.main
  float_of_str int_of_str {world} randint time_ms images_dir labels_dir w.

(** ** Concrete stand-ins, to run the definitions on examples *)

(** Decimal literals (an optional sign, digits, an optional point and
    digits) and, for [float], the words [inf], [-inf] and [nan].  A subset
    of what [float] and [int] accept. *)
Module Dec.
Definition digit (c : ascii) : option Z :=
  let n := nat_of_ascii c in
  if (48 <=? n)%nat && (n <=? 57)%nat then Some (Z.of_nat (n - 48)) else None.

Fixpoint digits (s : string) (acc : Z) : option Z :=
  match s with
  | EmptyString => Some acc
  | String c s' =>
      match digit c with
      | Some d => digits s' (acc * 10 + d)
      | None => None
      end
  end.

Fixpoint fraction (s : string) (num : Z) (den : positive) : option Q :=
  match s with
  | EmptyString => Some (num # den)
  | String c s' =>
      match digit c with
      | Some d => fraction s' (num * 10 + d) (den * 10)
      | None => None
      end
  end.

Fixpoint unsigned (s : string) (acc : Z) : option Q :=
  match s with
  | EmptyString => Some (inject_Z acc)
  | String c s' =>
      if Ascii.eqb c "." then fraction s' acc 1
      else
        match digit c with
        | Some d => unsigned s' (acc * 10 + d)
        | None => None
        end
  end.

Fixpoint has_digit (s : string) : bool :=
  match s with
  | EmptyString => false
  | String c s' => match digit c with Some _ => true | None => has_digit s' end
  end.

Definition float_of_str (s : string) : option Py.float :=
  if String.eqb s "inf" then Some (Py.Inf false)
  else if String.eqb s "-inf" then Some (Py.Inf true)
  else if String.eqb s "nan" then Some Py.NaN
  else if has_digit s then
    match s with
    | String "-" s' => (fun q => Py.Finite (Qopp q)) <$> unsigned s' 0
    | _ => Py.Finite <$> unsigned s 0
    end
  else None.

Definition int_of_str (s : string) : option Z :=
  if has_digit s then
    match s with
    | String "-" s' => Z.opp <$> digits s' 0
    | _ => digits s 0
    end
  else None.
End Dec.

(** A world that is a counter: [randint] walks through its range and the
    clock advances by one millisecond per reading. *)
Module Counter.
Definition randint (lo hi : Z) (w : Z) : Z * Z := (lo + w mod (hi - lo + 1), w + 1).
Definition time_ms (w : Z) : Z * Z := (1700000000000 + w, w + 1).
End Counter.

(** * Properties *)

(** ** The built-ins on examples *)

Example slice_prefix : Py.slice None (Some 2) [1; 2; 3] = [1; 2].
Proof. reflexivity. Qed.
Example slice_negative : Py.slice None (Some (-2)) [1; 2; 3; 4; 5] = [1; 2; 3].
Proof. reflexivity. Qed.
Example slice_inverted : Py.slice (Some 4) (Some 2) [1; 2; 3; 4; 5] = [].
Proof. reflexivity. Qed.
Example slice_beyond : Py.slice (Some 4) None [1; 2; 3] = [].
Proof. reflexivity. Qed.
Example round_half_even_0 : Py.round (1 # 2) = 0.
Proof. reflexivity. Qed.
Example round_half_even_2 : Py.round (3 # 2) = 2.
Proof. reflexivity. Qed.
Example round_down : Py.round (12 # 5) = 2.
Proof. reflexivity. Qed.
Example round_negative : Py.round (- (12 # 5)) = -2.
Proof. reflexivity. Qed.
Example split_tokens : Py.split "  0 0.5	0.5 0.2  0.4 " = ["0"; "0.5"; "0.5"; "0.2"; "0.4"].
Proof. reflexivity. Qed.
Example strip_both : Py.strip "  a b  " = "a b".
Proof. reflexivity. Qed.
Example stem_jpg : Py.stem "tree.01.jpg" = "tree.01".
Proof. reflexivity. Qed.
Example stem_hidden : Py.stem ".jpg" = ".jpg".
Proof. reflexivity. Qed.
Example splitext_hidden : Py.splitext_root ".jpg" = ".jpg".
Proof. reflexivity. Qed.
Example splitext_png : Py.splitext_root "a.b.png" = "a.b".
Proof. reflexivity. Qed.
Example splitlines_mixed :
  Py.splitlines (String "a" (String "013" (String "010" (String "010"
                   (String "b" (String "010" EmptyString))))))
  = ["a"; ""; "b"].
Proof. reflexivity. Qed.
Example splitlines_no_final_break : Py.splitlines "a b" = ["a b"].
Proof. reflexivity. Qed.
Example splitlines_empty : Py.splitlines "" = [].
Proof. reflexivity. Qed.
Example sorted_names : Py.sorted ["b.jpg"; "a.jpg"; "B.jpg"] = ["B.jpg"; "a.jpg"; "b.jpg"].
Proof. reflexivity. Qed.

(** ** Slices, rounding and the shuffle *)

Section SliceFacts.
Context {A : Type}.
Implicit Types l : list A.


Lemma swap_Permutation l l' (i j : nat) : Py.swap i j l = Ok l' → l' ≡ₚ l.
Proof.
  unfold Py.swap. intros H.
  destruct (l !! j) as [xj|] eqn:Hj; [|discriminate].
  destruct (l !! i) as [xi|] eqn:Hi; [|discriminate].
  injection H as <-. by apply Permutation_insert_swap.
Qed.

Lemma swap_in_range l (i j : nat) :
  (i < length l)%nat → (j < length l)%nat → ∃ l', Py.swap i j l = Ok l'.
Proof.
  intros [xi Hi]%lookup_lt_is_Some_2 [xj Hj]%lookup_lt_is_Some_2.
  unfold Py.swap. rewrite Hi, Hj. eauto.
Qed.

Lemma swap_raises_IndexError l (i j : nat) e : Py.swap i j l = Raise e → e = IndexError.
Proof.
  unfold Py.swap. destruct (l !! j), (l !! i); intros H; by inversion H.
Qed.
End SliceFacts.



Section ShuffleFacts.
Context {rng_state : Type} (randbelow : rng_state → nat → nat * rng_state).

Lemma shuffle_from_Permutation {A} (i : nat) s (x : list A) :
  Splits.below_bound randbelow → (i ≤ length x - 1)%nat →
  ∃ x' s', Splits.shuffle_from randbelow i s x = Ok (x', s') ∧ x' ≡ₚ x.
Proof.
  intros Hrb. revert s x. induction i as [|i IH]; intros s x Hi; simpl.
  { by eexists _, _. }
  specialize (Hrb s (S (S i)) ltac:(lia)).
  destruct (randbelow s (S (S i))) as [j s']. simpl in Hrb.
  destruct (swap_in_range x (S i) j) as [x1 Hswap]; [lia..|].
  rewrite Hswap. simpl.
  pose proof (swap_Permutation _ _ _ _ Hswap) as Hperm.
  destruct (IH s' x1) as (x' & s'' & Hrun & Hp).
  { rewrite (Permutation_length Hperm). lia. }
  exists x', s''. split; [done|]. by rewrite Hp.
Qed.

Lemma shuffle_Permutation {A} s (x : list A) :
  Splits.below_bound randbelow → ∃ x' s', Splits.shuffle randbelow s x = Ok (x', s') ∧ x' ≡ₚ x.
Proof. intros Hrb. by apply shuffle_from_Permutation. Qed.

Lemma shuffle_from_raises {A} (i : nat) s (x : list A) e :
  Splits.shuffle_from randbelow i s x = Raise e → e = IndexError.
Proof.
  revert s x. induction i as [|i IH]; intros s x; simpl; [discriminate|].
  destruct (randbelow s (S (S i))) as [j s'].
  destruct (Py.swap (S i) j x) as [x1|e1] eqn:Hswap; simpl.
  - apply IH.
  - intros [= <-]. by eapply swap_raises_IndexError.
Qed.
End ShuffleFacts.

Lemma lcg_below_bound : Splits.below_bound Splits.Lcg.randbelow.
Proof.
  intros s k Hk. unfold Splits.Lcg.randbelow. simpl.
  pose proof (Z.mod_pos_bound s (Z.of_nat k)). lia.
Qed.

(** ** generate_splits.py: the split *)

Section SplitFacts.
Context {rng_state : Type} (seed_rng : Z → rng_state)
        (randbelow : rng_state → nat → nat * rng_state).

(** The ratio check of [_split_stems], as a proposition. *)
Lemma abs_gt_spec (x y : Q) : Py.abs_gt x y = true ↔ (y < Qabs x)%Q.
Proof.
  unfold Py.abs_gt. rewrite Qgt_alt.
  destruct (Qcompare (Qabs x) y); split; congruence.
Qed.

Lemma split_stems_rejects g stems (tr vr te : Q) seed :
  Py.abs_gt (tr + vr + te - 1) (1 # 1000000) = true →
  Splits._split_stems seed_rng randbelow g stems tr vr te seed
  = (Raise (ValueError "train+val+test ratios must sum to 1.0"), g).
Proof. intros H. unfold Splits._split_stems. by rewrite H. Qed.

Lemma split_stems_accepts g stems (tr vr te : Q) seed :
  Py.abs_gt (tr + vr + te - 1) (1 # 1000000) = false →
  Splits.below_bound randbelow →
  ∃ shuffled,
    shuffled ≡ₚ stems ∧
    let n := Z.of_nat (length shuffled) in
    let n_train := Py.round (inject_Z n * tr) in
    let n_val := Py.round (inject_Z n * vr) in
    fst (Splits._split_stems seed_rng randbelow g stems tr vr te seed)
    = Ok (Py.slice None (Some n_train) shuffled,
          Py.slice (Some n_train) (Some (n_train + n_val)) shuffled,
          Py.slice (Some (n_train + n_val)) None shuffled).
Proof.
  intros H Hrb. unfold Splits._split_stems. rewrite H. simpl.
  destruct (shuffle_Permutation randbelow (seed_rng seed) stems Hrb)
    as (shuffled & s' & -> & Hperm).
  exists shuffled. split; [done|]. reflexivity.
Qed.


(** C3: [_split_stems] is deterministic.  Its result is a function of the
    identifiers, the ratios and the seed alone: whatever the state of the
    process-wide generator, two calls return the same lists (or raise the
    same exception), they leave that state as it was, and two runs of
    [main] write the same files with the same content. *)
Theorem split_stems_deterministic g1 g2 (listing stems : list string)
    (tr vr te : Q) seed :
  fst (Splits._split_stems seed_rng randbelow g1 stems tr vr te seed)
  = fst (Splits._split_stems seed_rng randbelow g2 stems tr vr te seed) ∧
  snd (Splits._split_stems seed_rng randbelow g1 stems tr vr te seed) = g1 ∧
  fst (Splits.main seed_rng randbelow g1 listing tr vr te seed)
  = fst (Splits.main seed_rng randbelow g2 listing tr vr te seed).
Proof.
  split_and!; [reflexivity..|].
  unfold Splits.main, Splits._split_stems.
  destruct (Py.abs_gt _ _); [reflexivity|].
  destruct (Splits.shuffle _ _ _ ≫= _) as [[[train val] test]|e]; reflexivity.
Qed.

(** C4: ratios whose sum is further than 1e-6 from 1.0 make [_split_stems]
    raise the configuration error (before the generator is built and the
    list shuffled), and [main] then writes no file; ratios within the
    tolerance never raise that error. *)
Theorem split_stems_ratio_check g (listing stems : list string)
    (tr vr te : Q) seed :
  ((1 # 1000000 < Qabs (tr + vr + te - 1))%Q →
     fst (Splits._split_stems seed_rng randbelow g stems tr vr te seed)
     = Raise (ValueError "train+val+test ratios must sum to 1.0") ∧
     fst (Splits.main seed_rng randbelow g listing tr vr te seed)
     = {| Splits.written := [];
          Splits.raised :=
            Some (ValueError "train+val+test ratios must sum to 1.0") |}) ∧
  ((Qabs (tr + vr + te - 1) <= 1 # 1000000)%Q →
     ∀ msg,
       fst (Splits._split_stems seed_rng randbelow g stems tr vr te seed)
       ≠ Raise (ValueError msg)).
Proof.
  split.
  - intros Hbad%abs_gt_spec. split.
    + by rewrite split_stems_rejects.
    + unfold Splits.main. by rewrite split_stems_rejects.
  - intros Hgood msg. unfold Splits._split_stems.
    destruct (Py.abs_gt _ _) eqn:Hchk.
    { apply abs_gt_spec in Hchk. by apply Qlt_not_le in Hchk. }
    simpl. unfold Splits.shuffle.
    destruct (Splits.shuffle_from _ _ _ _) as [[shuffled s']|e] eqn:Hsh; simpl.
    + discriminate.
    + apply shuffle_from_raises in Hsh as ->. discriminate.
Qed.
End SplitFacts.

(** The split on ten identifiers with the linear congruential generator. *)
Example split_example :
  fst (Splits._split_stems Splits.Lcg.seed_rng Splits.Lcg.randbelow 0
         ["a"; "b"; "c"; "d"; "e"; "f"; "g"; "h"; "i"; "j"]
         (8 # 10) (1 # 10) (1 # 10) 42)
  = Ok (["b"; "d"; "j"; "f"; "h"; "e"; "g"; "i"], ["a"], ["c"]).
Proof. vm_compute. reflexivity. Qed.

(** Rounding both counts up can ask for more than there is: with three
    identifiers and ratios 0.5/0.5/0 the counts are 2 and 2, and the
    slices still share nothing and lose nothing. *)
Example split_rounding_overshoot :
  fst (Splits._split_stems Splits.Lcg.seed_rng Splits.Lcg.randbelow 0
         ["a"; "b"; "c"] (1 # 2) (1 # 2) 0 7)
  = Ok (["c"; "a"], ["b"], []).
Proof. vm_compute. reflexivity. Qed.



Lemma split_stems_ratio_check_witness :
  let stems := ["a"; "b"; "c"] in
  (fst (Splits._split_stems Splits.Lcg.seed_rng Splits.Lcg.randbelow 0
          stems (8 # 10) (1 # 10) (2 # 10) 42)
   = Raise (ValueError "train+val+test ratios must sum to 1.0") ∧
   fst (Splits.main Splits.Lcg.seed_rng Splits.Lcg.randbelow 0
          ["a.jpg"; "b.jpg"; "c.jpg"] (8 # 10) (1 # 10) (2 # 10) 42)
   = {| Splits.written := [];
        Splits.raised :=
          Some (ValueError "train+val+test ratios must sum to 1.0") |}) ∧
  (∀ msg,
     fst (Splits._split_stems Splits.Lcg.seed_rng Splits.Lcg.randbelow 0
            stems (8 # 10) (1 # 10) (1 # 10) 42)
     ≠ Raise (ValueError msg)).
Proof.
  split.
  - apply (proj1 (split_stems_ratio_check Splits.Lcg.seed_rng Splits.Lcg.randbelow
                    0 ["a.jpg"; "b.jpg"; "c.jpg"] ["a"; "b"; "c"]
                    (8 # 10) (1 # 10) (2 # 10) 42)).
    vm_compute. reflexivity.
  - apply (proj2 (split_stems_ratio_check Splits.Lcg.seed_rng Splits.Lcg.randbelow
                    0 ["a.jpg"; "b.jpg"; "c.jpg"] ["a"; "b"; "c"]
                    (8 # 10) (1 # 10) (1 # 10) 42)).
    vm_compute. discriminate.
Defined.

(** ** Directories, sorting and the selection of images *)

Lemma list_filter_elem_of {A} (f : A → bool) (l : list A) (x : A) :
  x ∈ List.filter f l ↔ x ∈ l ∧ f x = true.
Proof. rewrite !list_elem_of_In. apply filter_In. Qed.


Lemma list_filter_StronglySorted {A} (R : relation A) (f : A → bool) (l : list A) :
  StronglySorted R l → StronglySorted R (List.filter f l).
Proof.
  induction 1 as [|x l Hl IH Hx]; simpl; [constructor|].
  destruct (f x); [|done]. constructor; [done|].
  apply Forall_forall. intros y [Hy _]%list_filter_elem_of.
  by apply (proj1 (Forall_forall _ _) Hx).
Qed.

Lemma insert_sorted_Permutation x l : Py.insert_sorted x l ≡ₚ x :: l.
Proof.
  induction l as [|y l IH]; simpl; [done|].
  destruct (String.leb x y); [done|]. by rewrite IH, Permutation_swap.
Qed.

Lemma sorted_Permutation l : Py.sorted l ≡ₚ l.
Proof.
  induction l as [|x l IH]; simpl; [done|].
  by rewrite insert_sorted_Permutation, IH.
Qed.

Lemma insert_sorted_StronglySorted x l :
  StronglySorted String.le l → StronglySorted String.le (Py.insert_sorted x l).
Proof.
  induction 1 as [|y l Hl IH Hy]; simpl.
  { repeat constructor. }
  destruct (String.leb x y) eqn:Hxy.
  - constructor; [by constructor|].
    assert (String.le x y) as Hle by (unfold String.le; by rewrite Hxy).
    constructor; [done|].
    eapply Forall_impl; [exact Hy|]. intros z Hz. by etrans.
  - constructor; [done|].
    rewrite insert_sorted_Permutation. constructor; [|done].
    destruct (total String.le x y) as [Hle|Hle]; [|done].
    unfold String.le in Hle. by rewrite Hxy in Hle.
Qed.

Lemma sorted_StronglySorted l : StronglySorted String.le (Py.sorted l).
Proof.
  induction l as [|x l IH]; simpl; [constructor|].
  by apply insert_sorted_StronglySorted.
Qed.

Lemma dir_lookup_elem_of {V} (name : string) (dir : list (string * V)) :
  name ∈ map fst dir → ∃ v, dir_lookup name dir = Some v ∧ (name, v) ∈ dir.
Proof.
  induction dir as [|[n v] dir IH]; simpl.
  { by intros ?%elem_of_nil. }
  intros Hin. destruct (String.eqb_spec n name) as [->|Hne].
  - exists v. split; [done|]. by left.
  - apply elem_of_cons in Hin as [Heq|Hin]; [by subst|].
    destruct (IH Hin) as (v' & Hl & Hv'). exists v'. split; [done|]. by right.
Qed.

(** The paths the converter selects: with no filter, the names that end in
    [.jpg]; with one, those of them whose stem is listed. *)
Lemma collect_image_paths_None images_dir p :
  p ∈ Coco._collect_image_paths images_dir None
  ↔ p ∈ map fst images_dir ∧ Py.endswith p ".jpg" = true.
Proof.
  unfold Coco._collect_image_paths.
  by rewrite sorted_Permutation, list_filter_elem_of.
Qed.

Lemma collect_image_paths_Some images_dir stems p :
  p ∈ Coco._collect_image_paths images_dir (Some stems)
  ↔ p ∈ map fst images_dir ∧ Py.endswith p ".jpg" = true ∧ Py.stem p ∈ stems.
Proof.
  unfold Coco._collect_image_paths.
  rewrite list_filter_elem_of, sorted_Permutation, list_filter_elem_of.
  rewrite bool_decide_eq_true, elem_of_list_to_set. tauto.
Qed.

Lemma collect_image_paths_in_dir images_dir stems p :
  p ∈ Coco._collect_image_paths images_dir stems → p ∈ map fst images_dir.
Proof.
  destruct stems as [stems|].
  - by intros (? & _)%collect_image_paths_Some.
  - by intros (? & _)%collect_image_paths_None.
Qed.

Lemma collect_image_paths_sorted images_dir stems :
  StronglySorted String.le (Coco._collect_image_paths images_dir stems).
Proof.
  unfold Coco._collect_image_paths. destruct stems as [stems|].
  - apply list_filter_StronglySorted, sorted_StronglySorted.
  - apply sorted_StronglySorted.
Qed.

(** Every selected path opens as an image when every file of the directory
    decodes. *)
Lemma image_size_selected images_dir stems :
  Forall (λ entry, is_Some (decoded_size entry.2)) images_dir →
  Forall (λ p, ∃ wh, Coco._image_size images_dir p = Ok wh)
         (Coco._collect_image_paths images_dir stems).
Proof.
  intros Hdec. apply Forall_forall. intros p Hp%collect_image_paths_in_dir.
  destruct (dir_lookup_elem_of p images_dir Hp) as (f & Hl & Hf).
  unfold Coco._image_size. rewrite Hl.
  destruct (proj1 (Forall_forall _ _) Hdec _ Hf) as [[w h] Hwh]. simpl in Hwh.
  rewrite Hwh. by eexists.
Qed.

(** ** convert_to_coco.py: reading the labels *)

Section CocoFacts.
Variable float_of_str : string → option Py.float.

Local Abbreviation parse_row := (Coco.parse_row float_of_str).
Local Abbreviation _read_yolo_labels := (Coco._read_yolo_labels float_of_str).
Local Abbreviation convert_rows := (Coco.convert_rows).
Local Abbreviation convert_images := (Coco.convert_images float_of_str).
Local Abbreviation convert_to_coco := (Coco.convert_to_coco float_of_str).



(** A line that does not split into exactly five tokens yields no row. *)
Lemma parse_row_token_count raw :
  length (Py.split (Py.strip raw)) ≠ 5%nat → parse_row raw = Ok None.
Proof.
  unfold Coco.parse_row. intros H. destruct (String.eqb _ _); [done|].
  destruct (Py.split (Py.strip raw)) as [|p0 [|p1 [|p2 [|p3 [|p4 [|p5 ps]]]]]]; done.
Qed.



(** ** convert_to_coco.py: the two loops *)

Lemma convert_rows_spec img_id width height rows annotations next_ann_id :
  ∃ new,
    convert_rows img_id width height rows annotations next_ann_id
    = (annotations ++ new, next_ann_id + Z.of_nat (length rows)) ∧
    length new = length rows ∧
    map Coco.CocoAnnotation.id new = seqZ next_ann_id (Z.of_nat (length rows)) ∧
    Forall (λ a, Coco.CocoAnnotation.image_id a = img_id ∧
                 Coco.CocoAnnotation.category_id a = 1) new.
Proof.
  unfold Coco.convert_rows. revert annotations next_ann_id.
  induction rows as [|[[[[cls xc] yc] w] h] rows IH]; intros annotations next_ann_id.
  - exists []. simpl. rewrite app_nil_r, Z.add_0_r. done.
  - simpl foldl.
    match goal with
    | |- context [foldl _ (?a, ?n) rows] =>
        destruct (IH a n) as (new & Hrun & Hlen & Hids & Hall)
    end.
    eexists (_ :: new). split; [|split; [|split]].
    + etrans; [exact Hrun|]. f_equal; [by rewrite <- app_assoc|].
      rewrite length_cons. lia.
    + simpl. by rewrite Hlen.
    + rewrite length_cons. cbn [map]. rewrite Hids.
      rewrite (seqZ_cons next_ann_id) by lia. simpl.
      f_equal. f_equal; lia.
    + by constructor.
Qed.

(** What the outer loop adds: one image record per path, numbered from
    [k] on in the order of the paths, and annotations that all carry
    category 1 and the number of an image whose label file gave rows. *)
Lemma convert_images_spec images_dir labels_dir paths k imgs anns next imgs' anns' :
  convert_images images_dir labels_dir paths k imgs anns next = Ok (imgs', anns') →
  ∃ new_imgs new_anns,
    imgs' = imgs ++ new_imgs ∧ anns' = anns ++ new_anns ∧
    map Coco.CocoImage.file_name new_imgs = paths ∧
    map Coco.CocoImage.id new_imgs = seqZ k (Z.of_nat (length paths)) ∧
    Forall (λ a, Coco.CocoAnnotation.category_id a = 1 ∧
                 ∃ (i : nat) path rows,
                   paths !! i = Some path ∧
                   Coco.CocoAnnotation.image_id a = k + Z.of_nat i ∧
                   _read_yolo_labels labels_dir (Py.stem path +:+ ".txt") = Ok rows ∧
                   rows ≠ [])
           new_anns.
Proof.
  revert k imgs anns next.
  induction paths as [|path rest IH]; intros k imgs anns next H.
  - injection H as <- <-. exists [], []. by rewrite !app_nil_r.
  - cbn [Coco.convert_images] in H.
    destruct (Coco._image_size images_dir path) as [[w h]|e]; [|discriminate H].
    cbn [mbind result_bind] in H.
    destruct (_read_yolo_labels labels_dir (Py.stem path +:+ ".txt"))
      as [rows|e] eqn:Hread; cbn [mbind result_bind] in H; [|discriminate H].
    destruct (convert_rows_spec k w h rows anns next)
      as (new1 & Hrows & Hlen1 & _ & Hall1).
    rewrite Hrows in H.
    apply IH in H as (ni & na & -> & -> & Hfn & Hid & Hall).
    eexists (_ :: ni), (new1 ++ na). split_and!.
    + by rewrite <- app_assoc.
    + by rewrite <- app_assoc.
    + cbn [map Coco.CocoImage.file_name]. by rewrite Hfn.
    + cbn [map Coco.CocoImage.id]. rewrite Hid, length_cons.
      rewrite (seqZ_cons k) by lia. f_equal. f_equal; lia.
    + apply Forall_app. split.
      * apply Forall_forall. intros a Ha.
        destruct (proj1 (Forall_forall _ _) Hall1 a Ha) as [Hi Hc]. split; [done|].
        exists 0%nat, path, rows. split_and!; [done|lia|done|].
        intros Hnil. rewrite Hnil in Hlen1. destruct new1; [|discriminate Hlen1].
        by apply elem_of_nil in Ha.
      * eapply Forall_impl; [exact Hall|].
        intros a (Hc & i & p & rs & Hp & Hi & Hr & Hne). split; [done|].
        exists (S i), p, rs. split_and!; [done|lia|done|done].
Qed.


(** ... and stops with an exception when some path does not open. *)
Lemma convert_images_raises images_dir labels_dir paths k imgs anns next :
  Exists (λ p, ∃ e, Coco._image_size images_dir p = Raise e) paths →
  ∃ e, convert_images images_dir labels_dir paths k imgs anns next = Raise e.
Proof.
  revert k imgs anns next.
  induction paths as [|path rest IH]; intros k imgs anns next Hex.
  - by apply Exists_nil in Hex.
  - cbn [Coco.convert_images].
    destruct (Coco._image_size images_dir path) as [[w h]|e] eqn:Hsz.
    + apply Exists_cons in Hex as [[e He]|Hex]; [congruence|].
      cbn [mbind result_bind].
      destruct (_read_yolo_labels labels_dir (Py.stem path +:+ ".txt")) as [rows|e];
        cbn [mbind result_bind]; [|by eexists].
      destruct (Coco.convert_rows _ _ _ _ _ _) as [anns1 next1]. by apply IH.
    + by eexists.
Qed.

(** The document [convert_to_coco] writes, in terms of the loop. *)
Lemma convert_to_coco_written images_dir labels_dir out_json stems file doc :
  Coco.written (convert_to_coco images_dir labels_dir out_json stems) = Some (file, doc) →
  file = out_json ∧
  Coco.categories doc = [ {| Coco.category_id := 1; Coco.category_name := "apple";
                             Coco.supercategory := "fruit" |} ] ∧
  ∃ anns,
    convert_images images_dir labels_dir
      (Coco._collect_image_paths images_dir stems) 1 [] [] 1
    = Ok (Coco.images doc, anns) ∧
    Coco.annotations doc = map Coco.dump_annotation anns.
Proof.
  unfold Coco.convert_to_coco.
  destruct (Coco.convert_images _ _ _ _ _ _ _ _) as [[imgs anns]|e]; simpl.
  - intros [= <- <-]. simpl. eauto.
  - discriminate.
Qed.
End CocoFacts.

(** ** generate_individual_annotations.py *)

Section IndividualFacts.
Variable float_of_str : string → option Py.float.
Variable int_of_str : string → option Z.
Context {world : Type}.
Variable randint : Z → Z → world → Z * world.
Variable time_ms : world → Z * world.

Local Abbreviation parse_line := (Individual.parse_line float_of_str int_of_str).
Local Abbreviation read_lines := (Individual.read_lines float_of_str int_of_str).
Local Abbreviation read_yolo_annotations :=
  (Individual.read_yolo_annotations float_of_str int_of_str).
Local Abbreviation generate_individual_json :=
  (Individual.generate_individual_json float_of_str int_of_str randint time_ms).
Local Abbreviation process_images :=
  (Individual.process_images float_of_str int_of_str randint time_ms).

(** An image that does not decode gets the fallback size 640 x 640. *)
Lemma get_image_info_fallback images_dir image_path f :
  dir_lookup image_path images_dir = Some f → decoded_size f = None →
  Individual.get_image_info images_dir image_path
  = (Ok {| Individual.ImageInfo.width := 640;
           Individual.ImageInfo.height := 640;
           Individual.ImageInfo.size := byte_size f;
           Individual.ImageInfo.format := "JPEG" |},
     [Individual.ErrorReadingImage image_path]).
Proof. intros Hl Hd. unfold Individual.get_image_info. by rewrite Hl, Hd. Qed.


(** A line that does not split into exactly five tokens is passed over
    without an exception. *)
Lemma parse_line_token_count line :
  length (Py.split (Py.strip line)) ≠ 5%nat → parse_line line = Ok None.
Proof.
  unfold Individual.parse_line. intros H. destruct (String.eqb _ _); [done|].
  destruct (Py.split (Py.strip line)) as [|p0 [|p1 [|p2 [|p3 [|p4 [|p5 ps]]]]]]; done.
Qed.

(** A line whose conversion raises ends the reading: the lines after it
    are not looked at. *)
Lemma read_lines_stops label_file_path line rest annotations e :
  parse_line line = Raise e →
  read_lines label_file_path (line :: rest) annotations
  = (annotations, [Individual.ErrorReadingLabel label_file_path]).
Proof. intros H. simpl. by rewrite H. Qed.

Lemma read_lines_log label_file_path lines annotations :
  Individual.processed_files (read_lines label_file_path lines annotations).2 = [].
Proof.
  revert annotations. induction lines as [|line rest IH]; intros annotations; simpl.
  - done.
  - destruct (parse_line line) as [[a|]|e]; [apply IH..|done].
Qed.

Lemma convert_annotations_spec image_info image_id category_id yolo w :
  Forall (λ a, Individual.Annotation.image_id a = image_id ∧
               Individual.Annotation.category_id a = category_id)
         (Individual.convert_annotations randint time_ms image_info image_id
            category_id yolo w).1.
Proof.
  unfold Individual.convert_annotations.
  enough (Hgen : ∀ acc w,
            Forall (λ a, Individual.Annotation.image_id a = image_id ∧
                         Individual.Annotation.category_id a = category_id) acc →
            Forall (λ a, Individual.Annotation.image_id a = image_id ∧
                         Individual.Annotation.category_id a = category_id)
              (foldl (λ '(annotations, w) yolo_ann,
                        let yolo_bbox :=
                          (Individual.YoloAnn.center_x yolo_ann,
                           Individual.YoloAnn.center_y yolo_ann,
                           Individual.YoloAnn.width yolo_ann,
                           Individual.YoloAnn.height yolo_ann) in
                        let coco_bbox :=
                          Individual.yolo_to_coco_bbox yolo_bbox
                            (Individual.ImageInfo.width image_info)
                            (Individual.ImageInfo.height image_info) in
                        let area :=
                          Py.fmul (Individual.item coco_bbox 2)
                            (Individual.item coco_bbox 3) in
                        let (annotation, w) :=
                          Individual.create_annotation_template randint time_ms
                            image_id category_id coco_bbox area w in
                        (annotations ++ [annotation], w))
                     (acc, w) yolo).1)
    by (apply Hgen; constructor).
  induction yolo as [|y yolo IH]; intros acc w0 Hacc; [done|].
  cbn [foldl].
  unfold Individual.create_annotation_template at 2.
  destruct (Individual.generate_unique_id randint time_ms w0) as [id w1].
  apply IH. apply Forall_app. split; [done|]. by repeat constructor.
Qed.

(** The document of one image: a single image record and a single
    category, and annotations that all point at the two. *)
Lemma generate_individual_json_spec images_dir labels_dir image_file output_dir w
      path t log w' :
  generate_individual_json images_dir labels_dir image_file output_dir w
  = (Ok (path, t), log, w') →
  ∃ img cat,
    Individual.images t = [img] ∧
    Individual.ImageEntry.file_name img = image_file ∧
    Individual.categories t = [cat] ∧
    Forall (λ a, Individual.Annotation.image_id a = Individual.ImageEntry.id img ∧
                 Individual.Annotation.category_id a = Individual.Category.id cat)
           (Individual.annotations t) ∧
    (labels_dir !! (Py.splitext_root image_file +:+ ".txt") = None →
       Individual.annotations t = [] ∧
       Individual.WarningLabelNotFound image_file ∈ log).
Proof.
  unfold Individual.generate_individual_json.
  destruct (Individual.get_image_info images_dir image_file) as [[info|e] log0];
    [|discriminate].
  destruct (Individual.generate_unique_id randint time_ms w) as [image_id w1].
  destruct (Individual.generate_unique_id randint time_ms w1) as [category_id w2].
  destruct (labels_dir !! (Py.splitext_root image_file +:+ ".txt")) as [lines|] eqn:Hlbl.
  - destruct (read_yolo_annotations labels_dir _) as [yolo log1].
    pose proof (convert_annotations_spec info image_id category_id yolo w2) as Hanns.
    destruct (Individual.convert_annotations _ _ _ _ _ _ _) as [anns w3].
    intros [= <- <- <- <-]. eexists _, _. split_and!; try done.
  - intros [= <- <- <- <-]. eexists _, _. split_and!; try done.
    intros _. split; [done|]. set_solver.
Qed.

End IndividualFacts.

(** ** The two conversions of a box *)

(** [yolo_to_coco_bbox] returns the centre and the size in pixels. *)
Lemma individual_bbox_formula (cx cy w h : Q) (img_width img_height : Z) :
  Individual.yolo_to_coco_bbox
    (Py.Finite cx, Py.Finite cy, Py.Finite w, Py.Finite h) img_width img_height
  = [ Py.Finite (cx * inject_Z img_width); Py.Finite (cy * inject_Z img_height);
      Py.Finite (w * inject_Z img_width); Py.Finite (h * inject_Z img_height) ].
Proof. reflexivity. Qed.

(** On the box (0.5, 0.5, 0.2, 0.4) and a 100 x 200 image it returns
    [50, 100, 20, 80]. *)
Lemma individual_bbox_keeps_centre :
  ∃ x y w h,
    Individual.yolo_to_coco_bbox
      (Py.Finite (1 # 2), Py.Finite (1 # 2), Py.Finite (2 # 10), Py.Finite (4 # 10))
      100 200
    = [Py.Finite x; Py.Finite y; Py.Finite w; Py.Finite h] ∧
    (x == 50 ∧ y == 100 ∧ w == 20 ∧ h == 80)%Q.
Proof. eexists _, _, _, _. split; [reflexivity|]. vm_compute. by split_and!. Qed.

(** C1 (as amended): [_yolo_to_coco_bbox] of convert_to_coco.py returns the
    width [w * W], the height [h * H] and the top-left corner
    [x = cx * W - (w * W) / 2], [y = cy * H - (h * H) / 2]; the box
    (0.5, 0.5, 0.2, 0.4) on a 100 x 200 image becomes (40, 60, 20, 80). *)
Theorem yolo_to_coco_bbox_top_left (xc yc w h : Q) (width_px height_px : Z) :
  Coco._yolo_to_coco_bbox (Py.Finite xc) (Py.Finite yc) (Py.Finite w) (Py.Finite h)
    width_px height_px
  = (Py.Finite (xc * inject_Z width_px - (w * inject_Z width_px) / 2),
     Py.Finite (yc * inject_Z height_px - (h * inject_Z height_px) / 2),
     Py.Finite (w * inject_Z width_px),
     Py.Finite (h * inject_Z height_px)) ∧
  ∃ x y ww hh,
    Coco._yolo_to_coco_bbox (Py.Finite (1 # 2)) (Py.Finite (1 # 2))
      (Py.Finite (2 # 10)) (Py.Finite (4 # 10)) 100 200
    = (Py.Finite x, Py.Finite y, Py.Finite ww, Py.Finite hh) ∧
    (x == 40 ∧ y == 60 ∧ ww == 20 ∧ hh == 80)%Q.
Proof.
  split.
  - reflexivity.
  - eexists _, _, _, _. split; [reflexivity|]. vm_compute. by split_and!.
Qed.

(** C1 (as stated) fails on its own example: for the box
    (0.5, 0.5, 0.2, 0.4) on a 100 x 200 image the top-left y is
    0.5 * 200 - 80 / 2 = 60, not 20. *)
Lemma yolo_to_coco_bbox_example_y_is_60 :
  ∃ x y ww hh,
    Coco._yolo_to_coco_bbox (Py.Finite (1 # 2)) (Py.Finite (1 # 2))
      (Py.Finite (2 # 10)) (Py.Finite (4 # 10)) 100 200
    = (Py.Finite x, Py.Finite y, Py.Finite ww, Py.Finite hh) ∧
    (y == 60)%Q ∧ ¬ (x == 40 ∧ y == 20 ∧ ww == 20 ∧ hh == 80)%Q.
Proof.
  eexists _, _, _, _. split; [reflexivity|].
  vm_compute. split; [reflexivity|]. intros (_ & Hy & _). discriminate Hy.
Qed.

(** ** Images that do not decode *)

(** In convert_to_coco.py an image that PIL cannot open ends the call: the
    exception of [_image_size] leaves [convert_to_coco] and nothing is
    written. *)
Lemma convert_to_coco_unreadable float_of_str images_dir labels_dir out_json stems p f :
  p ∈ Coco._collect_image_paths images_dir stems →
  dir_lookup p images_dir = Some f → decoded_size f = None →
  ∃ e, Coco.convert_to_coco float_of_str images_dir labels_dir out_json stems
       = {| Coco.printed :=
              [Coco.Found (length (Coco._collect_image_paths images_dir stems))];
            Coco.written := None;
            Coco.raised := Some e |}.
Proof.
  intros Hp Hl Hd. unfold Coco.convert_to_coco.
  destruct (convert_images_raises float_of_str images_dir labels_dir
              (Coco._collect_image_paths images_dir stems) 1 [] [] 1) as [e ->].
  { apply Exists_exists. exists p. split; [done|].
    unfold Coco._image_size. rewrite Hl, Hd. by eexists. }
  by exists e.
Qed.

(** C5: a directory with [a.jpg], which does not decode, and [b.jpg], which
    does.  [convert_to_coco] stops at [a.jpg] with the exception of
    [Image.open] and writes no document, so [b.jpg] is never converted;
    [main] of generate_individual_annotations.py gives [a.jpg] the fallback
    size 640 x 640 and writes a document for each of the two. *)
Theorem unreadable_image_aborts_convert_to_coco float_of_str :
  let images_dir :=
    [ ("a.jpg", {| decoded_size := None; byte_size := 10 |});
      ("b.jpg", {| decoded_size := Some (100, 200); byte_size := 20 |}) ] in
  Coco.convert_to_coco float_of_str images_dir ∅ "out.json" None
  = {| Coco.printed := [Coco.Found 2];
       Coco.written := None;
       Coco.raised := Some (UnidentifiedImageError "a.jpg") |} ∧
  map (λ '(path, t),
         (path, map (λ i, (Individual.ImageEntry.file_name i,
                           Individual.ImageEntry.width i,
                           Individual.ImageEntry.height i))
                    (Individual.images t)))
      (Individual.written
         (Individual.main Dec.float_of_str Dec.int_of_str
            Counter.randint Counter.time_ms images_dir ∅ 0).1)
  = [ ("data/images/a.json", [("a.jpg", 640, 640)]);
      ("data/images/b.json", [("b.jpg", 100, 200)]) ].
Proof. split; vm_compute; reflexivity. Qed.

(** ** Malformed label lines *)

(** C6: a label file of three lines, the second with a token that is not a
    number.  [_read_yolo_labels] of convert_to_coco.py skips that line and
    returns the rows of the other two.  [read_yolo_annotations] of
    generate_individual_annotations.py has its [try] around the whole loop:
    the exception of the second line ends the reading, and the third line,
    well-formed, is lost. *)
Theorem malformed_line_ends_read_yolo_annotations :
  let labels_dir : gmap string (list string) :=
    {[ "a.txt" := [ "0 0.5 0.5 0.2 0.4"; "0 abc 0.5 0.2 0.2"; "1 0.25 0.25 0.5 0.5" ] ]} in
  Coco._read_yolo_labels Dec.float_of_str labels_dir "a.txt"
  = Ok [ (0, Py.Finite (5 # 10), Py.Finite (5 # 10),
          Py.Finite (2 # 10), Py.Finite (4 # 10));
         (1, Py.Finite (25 # 100), Py.Finite (25 # 100),
          Py.Finite (5 # 10), Py.Finite (5 # 10)) ] ∧
  Individual.read_yolo_annotations Dec.float_of_str Dec.int_of_str labels_dir "a.txt"
  = ([ {| Individual.YoloAnn.class_id := 0;
          Individual.YoloAnn.center_x := Py.Finite (5 # 10);
          Individual.YoloAnn.center_y := Py.Finite (5 # 10);
          Individual.YoloAnn.width := Py.Finite (2 # 10);
          Individual.YoloAnn.height := Py.Finite (4 # 10) |} ],
     [ Individual.ErrorReadingLabel "a.txt" ]).
Proof. split; vm_compute; reflexivity. Qed.

(** A line of four tokens is dropped by both readers, and the lines around
    it are kept. *)
Example four_token_line_dropped :
  let labels_dir : gmap string (list string) :=
    {[ "a.txt" := [ "0 0.5 0.5 0.2"; "1 0.25 0.25 0.5 0.5" ] ]} in
  Coco._read_yolo_labels Dec.float_of_str labels_dir "a.txt"
  = Ok [ (1, Py.Finite (25 # 100), Py.Finite (25 # 100),
          Py.Finite (5 # 10), Py.Finite (5 # 10)) ] ∧
  Individual.read_yolo_annotations Dec.float_of_str Dec.int_of_str labels_dir "a.txt"
  = ([ {| Individual.YoloAnn.class_id := 1;
          Individual.YoloAnn.center_x := Py.Finite (25 # 100);
          Individual.YoloAnn.center_y := Py.Finite (25 # 100);
          Individual.YoloAnn.width := Py.Finite (5 # 10);
          Individual.YoloAnn.height := Py.Finite (5 # 10) |} ], []).
Proof. split; vm_compute; reflexivity. Qed.

(** A class token that [float] reads as an infinity is not caught by the
    handler of [_read_yolo_labels]; one that it reads as NaN is, and the
    line is passed over. *)
Example infinite_class_raises :
  Coco._read_yolo_labels Dec.float_of_str
    {[ "a.txt" := [ "0 0.5 0.5 0.2 0.4"; "inf 0.5 0.5 0.2 0.4" ] ]} "a.txt"
  = Raise (OverflowError "cannot convert float infinity to integer") ∧
  Coco._read_yolo_labels Dec.float_of_str
    {[ "a.txt" := [ "nan 0.5 0.5 0.2 0.4"; "1 0.5 0.5 0.2 0.4" ] ]} "a.txt"
  = Ok [ (1, Py.Finite (5 # 10), Py.Finite (5 # 10),
          Py.Finite (2 # 10), Py.Finite (4 # 10)) ].
Proof. split; vm_compute; reflexivity. Qed.

(** ** The documents *)

Lemma map_is_fmap {A B} (f : A → B) (l : list A) : map f l = f <$> l.
Proof. induction l as [|x l IH]; simpl; [done|]. by rewrite IH. Qed.

(** The document of [convert_to_coco]: the image records follow the
    selected paths and are numbered 1, 2, ...; every annotation carries
    category 1 and the number of an image whose label file gave rows. *)
Lemma convert_to_coco_document float_of_str images_dir labels_dir out_json stems file doc :
  Coco.written (Coco.convert_to_coco float_of_str images_dir labels_dir out_json stems)
  = Some (file, doc) →
  let paths := Coco._collect_image_paths images_dir stems in
  Coco.CocoImage.file_name <$> Coco.images doc = paths ∧
  Coco.CocoImage.id <$> Coco.images doc = seqZ 1 (Z.of_nat (length paths)) ∧
  Forall (λ a, Coco.AnnotationDict.category_id a = 1 ∧
               ∃ (i : nat) path rows,
                 paths !! i = Some path ∧
                 Coco.AnnotationDict.image_id a = 1 + Z.of_nat i ∧
                 Coco._read_yolo_labels float_of_str labels_dir (Py.stem path +:+ ".txt")
                 = Ok rows ∧
                 rows ≠ [])
         (Coco.annotations doc).
Proof.
  intros (_ & _ & anns & Hrun & Hanns)%convert_to_coco_written.
  apply convert_images_spec in Hrun
    as (new_imgs & new_anns & Himgs & -> & Hfn & Hid & Hall).
  simpl in Himgs. rewrite Himgs, Hanns. simpl.
  rewrite <- !map_is_fmap. split_and!; [done..|].
  apply Forall_forall. intros a Ha. rewrite map_is_fmap in Ha.
  apply list_elem_of_fmap in Ha as (a0 & -> & Ha0).
  exact (proj1 (Forall_forall _ _) Hall a0 Ha0).
Qed.

(** The image record of the path at position [i] has number [1 + i]. *)
Lemma convert_to_coco_image_at float_of_str images_dir labels_dir out_json stems
      file doc (i : nat) p :
  Coco.written (Coco.convert_to_coco float_of_str images_dir labels_dir out_json stems)
  = Some (file, doc) →
  Coco._collect_image_paths images_dir stems !! i = Some p →
  ∃ img, Coco.images doc !! i = Some img ∧
         Coco.CocoImage.file_name img = p ∧
         Coco.CocoImage.id img = 1 + Z.of_nat i.
Proof.
  intros (Hfn & Hid & _)%convert_to_coco_document Hp.
  pose proof (lookup_lt_Some _ _ _ Hp) as Hlt.
  rewrite <- Hfn in Hp. rewrite list_lookup_fmap in Hp.
  destruct (Coco.images doc !! i) as [img|] eqn:Himg; [|discriminate].
  injection Hp as Hp. exists img. split_and!; [done..|].
  assert (Hi : (Coco.CocoImage.id <$> Coco.images doc) !! i
               = Some (Coco.CocoImage.id img))
    by (by rewrite list_lookup_fmap, Himg).
  rewrite Hid, lookup_seqZ_lt in Hi by lia. by injection Hi.
Qed.

(** ** Label files that are missing *)




(** ** Which files are converted *)

Section IndividualRun.
Variable float_of_str : string → option Py.float.
Variable int_of_str : string → option Z.
Context {world : Type}.
Variable randint : Z → Z → world → Z * world.
Variable time_ms : world → Z * world.

Lemma processed_files_cons m log :
  Individual.processed_files (m :: log)
  = match m with
    | Individual.Processing _ _ image_file =>
        image_file :: Individual.processed_files log
    | _ => Individual.processed_files log
    end.
Proof. by destruct m. Qed.

Lemma processed_files_app log1 log2 :
  Individual.processed_files (log1 ++ log2)
  = Individual.processed_files log1 ++ Individual.processed_files log2.
Proof. apply omap_app. Qed.

Lemma get_image_info_log images_dir image_path :
  Individual.processed_files (Individual.get_image_info images_dir image_path).2 = [].
Proof.
  unfold Individual.get_image_info.
  destruct (dir_lookup image_path images_dir) as [f|]; [|done].
  by destruct (decoded_size f) as [[w h]|].
Qed.

Lemma generate_individual_json_log images_dir labels_dir image_file output_dir w :
  Individual.processed_files
    (Individual.generate_individual_json float_of_str int_of_str randint time_ms
       images_dir labels_dir image_file output_dir w).1.2 = [].
Proof.
  unfold Individual.generate_individual_json.
  pose proof (get_image_info_log images_dir image_file) as Hlog0.
  destruct (Individual.get_image_info images_dir image_file) as [[info|e] log0];
    simpl in Hlog0; [|done].
  destruct (Individual.generate_unique_id randint time_ms w) as [image_id w1].
  destruct (Individual.generate_unique_id randint time_ms w1) as [category_id w2].
  destruct (labels_dir !! (Py.splitext_root image_file +:+ ".txt")) as [lines|] eqn:Hlbl.
  - unfold Individual.read_yolo_annotations. rewrite Hlbl.
    pose proof (read_lines_log float_of_str int_of_str
                  (Py.splitext_root image_file +:+ ".txt") lines []) as Hlog1.
    destruct (Individual.read_lines _ _ _ lines []) as [yolo log1]. simpl in Hlog1.
    destruct (Individual.convert_annotations _ _ _ _ _ _ _) as [anns w3]. simpl.
    unfold Individual.processed_files in *. by rewrite !omap_app, Hlog0, Hlog1.
  - simpl. unfold Individual.processed_files in *. by rewrite !omap_app, Hlog0.
Qed.

(** The loop of [main] announces every file it is given, in the order it
    is given them. *)
Lemma process_images_processed images_dir labels_dir output_dir n i image_files w :
  Individual.processed_files
    (Individual.printed
       (Individual.process_images float_of_str int_of_str randint time_ms
          images_dir labels_dir output_dir n i image_files w).1)
  = image_files.
Proof.
  revert i w. induction image_files as [|image_file rest IH]; intros i w; [done|].
  cbn [Individual.process_images].
  pose proof (generate_individual_json_log images_dir labels_dir image_file
                output_dir w) as Hlog.
  destruct (Individual.generate_individual_json _ _ _ _ _ _ _ _ _) as [[r log] w1].
  simpl in Hlog. specialize (IH (S i) w1).
  destruct (Individual.process_images _ _ _ _ _ _ _ _ _ _ _) as [o w2].
  cbn [fst] in IH.
  destruct r as [file|e]; cbn [fst Individual.printed].
  - by rewrite processed_files_cons, processed_files_app, Hlog, IH.
  - by rewrite processed_files_cons, processed_files_app, Hlog,
               processed_files_cons, IH.
Qed.

Lemma main_processed images_dir labels_dir w :
  Individual.processed_files
    (Individual.printed
       (Individual.main float_of_str int_of_str randint time_ms
          images_dir labels_dir w).1)
  = List.filter Individual.is_image_name (map fst images_dir).
Proof.
  unfold Individual.main.
  pose proof (process_images_processed images_dir labels_dir "data/images"
                (length (List.filter Individual.is_image_name (map fst images_dir)))
                1 (List.filter Individual.is_image_name (map fst images_dir)) w) as H.
  destruct (Individual.process_images _ _ _ _ _ _ _ _ _ _ _) as [o w1].
  cbn [fst Individual.printed] in *.
  by rewrite processed_files_cons, processed_files_app, H, app_nil_r.
Qed.
End IndividualRun.

(** C8 (as amended): [convert_to_coco] takes, with no filter, exactly the
    files of the images directory whose name ends in [.jpg], and its paths
    are sorted by name; the single-image generator takes the files whose
    lower-cased name ends in [.jpg], [.jpeg] or [.png], in the order of the
    directory listing. *)
Theorem image_enumeration float_of_str int_of_str {world : Type}
    (randint : Z → Z → world → Z * world) (time_ms : world → Z * world)
    (images_dir : list (string * image_file)) (labels_dir : gmap string (list string))
    (stems : option (list string)) (w : world) :
  (∀ p, p ∈ Coco._collect_image_paths images_dir None
        ↔ p ∈ map fst images_dir ∧ Py.endswith p ".jpg" = true) ∧
  StronglySorted String.le (Coco._collect_image_paths images_dir stems) ∧
  Individual.processed_files
    (Individual.printed
       (Individual.main float_of_str int_of_str randint time_ms
          images_dir labels_dir w).1)
  = List.filter
      (λ f, Py.endswith (Py.lower f) ".jpg" || Py.endswith (Py.lower f) ".jpeg"
            || Py.endswith (Py.lower f) ".png")
      (map fst images_dir).
Proof.
  split_and!.
  - apply collect_image_paths_None.
  - apply collect_image_paths_sorted.
  - apply main_processed.
Qed.

(** C8 (as stated) fails: of [a.png], [b.jpeg] and [c.jpg] only [c.jpg] gets
    into the document of [convert_to_coco]; and the single-image generator
    goes through [b.jpg], [a.jpg] as listed, not sorted. *)
Lemma convert_to_coco_skips_png_and_jpeg :
  let f := {| decoded_size := Some (100, 200); byte_size := 20 |} in
  Coco._collect_image_paths [("a.png", f); ("b.jpeg", f); ("c.jpg", f)] None = ["c.jpg"] ∧
  (∃ doc,
     Coco.written (Coco.convert_to_coco Dec.float_of_str
                     [("a.png", f); ("b.jpeg", f); ("c.jpg", f)] ∅ "out.json" None)
     = Some ("out.json", doc) ∧
     map Coco.CocoImage.file_name (Coco.images doc) = ["c.jpg"]) ∧
  Individual.processed_files
    (Individual.printed
       (Individual.main Dec.float_of_str Dec.int_of_str Counter.randint Counter.time_ms
          [("b.jpg", f); ("a.jpg", f)] ∅ 0).1)
  = ["b.jpg"; "a.jpg"].
Proof.
  split_and!.
  - vm_compute. reflexivity.
  - eexists. split; vm_compute; reflexivity.
  - vm_compute. reflexivity.
Qed.

(** ** Identifiers inside one document *)

(** C9: in a document written by [convert_to_coco], and in one written by
    [generate_individual_json], every annotation carries the number of an
    image record of the same document, no two image records share a number,
    and every annotation carries the number of the one category of the
    document, whatever class the label line named. *)
Theorem documents_reference_their_images float_of_str int_of_str {world : Type}
    (randint : Z → Z → world → Z * world) (time_ms : world → Z * world)
    images_dir labels_dir out_json stems image_file output_dir (w w' : world)
    file doc path t log :
  (Coco.written (Coco.convert_to_coco float_of_str images_dir labels_dir out_json stems)
   = Some (file, doc) →
   (∀ a, a ∈ Coco.annotations doc →
         ∃ img, img ∈ Coco.images doc ∧
                Coco.CocoImage.id img = Coco.AnnotationDict.image_id a) ∧
   NoDup (Coco.CocoImage.id <$> Coco.images doc) ∧
   (∃ c, Coco.categories doc = [c] ∧
         ∀ a, a ∈ Coco.annotations doc →
              Coco.AnnotationDict.category_id a = Coco.category_id c)) ∧
  (Individual.generate_individual_json float_of_str int_of_str randint time_ms
     images_dir labels_dir image_file output_dir w
   = (Ok (path, t), log, w') →
   (∀ a, a ∈ Individual.annotations t →
         ∃ img, img ∈ Individual.images t ∧
                Individual.ImageEntry.id img = Individual.Annotation.image_id a) ∧
   NoDup (Individual.ImageEntry.id <$> Individual.images t) ∧
   (∃ c, Individual.categories t = [c] ∧
         ∀ a, a ∈ Individual.annotations t →
              Individual.Annotation.category_id a = Individual.Category.id c)).
Proof.
  split.
  - intros Hdoc.
    pose proof (convert_to_coco_document _ _ _ _ _ _ _ Hdoc) as (Hfn & Hid & Hall).
    pose proof (convert_to_coco_written _ _ _ _ _ _ _ Hdoc) as (_ & Hcat & _).
    split_and!.
    + intros a Ha.
      destruct (proj1 (Forall_forall _ _) Hall a Ha) as (_ & i & p & rows & Hp & Hi & _).
      destruct (convert_to_coco_image_at _ _ _ _ _ _ _ i p Hdoc Hp)
        as (img & Himg & _ & Hn).
      exists img. split; [|congruence].
      apply list_elem_of_lookup. by exists i.
    + rewrite Hid. apply NoDup_seqZ.
    + eexists. split; [exact Hcat|]. intros a Ha.
      by destruct (proj1 (Forall_forall _ _) Hall a Ha) as (-> & _).
  - intros Hrun.
    destruct (generate_individual_json_spec _ _ _ _ _ _ _ _ _ _ _ _ _ Hrun)
      as (img & cat & Himgs & _ & Hcats & Hall & _).
    split_and!.
    + intros a Ha. exists img. split; [rewrite Himgs; by left|].
      by destruct (proj1 (Forall_forall _ _) Hall a Ha) as [-> _].
    + rewrite Himgs. apply NoDup_singleton.
    + exists cat. split; [done|]. intros a Ha.
      by destruct (proj1 (Forall_forall _ _) Hall a Ha) as [_ ->].
Qed.

(** Two images, the first with two boxes of class 0 and 7, the second with
    one of class 3. *)
Example two_images_document :
  let f := {| decoded_size := Some (100, 200); byte_size := 20 |} in
  let labels_dir : gmap string (list string) :=
    {[ "a.txt" := [ "0 0.5 0.5 0.2 0.4"; "7 0.25 0.25 0.5 0.5" ];
       "b.txt" := [ "3 0.5 0.5 1 1" ] ]} in
  ∃ doc,
    Coco.written (Coco.convert_to_coco Dec.float_of_str [("b.jpg", f); ("a.jpg", f)]
                    labels_dir "out.json" None)
    = Some ("out.json", doc) ∧
    map (λ i, (Coco.CocoImage.id i, Coco.CocoImage.file_name i)) (Coco.images doc)
    = [(1, "a.jpg"); (2, "b.jpg")] ∧
    map (λ a, (Coco.AnnotationDict.id a, Coco.AnnotationDict.image_id a,
               Coco.AnnotationDict.category_id a)) (Coco.annotations doc)
    = [(1, 1, 1); (2, 1, 1); (3, 2, 1)].
Proof. eexists. split_and!; vm_compute; reflexivity. Qed.

Lemma documents_reference_their_images_witness :
  let f := {| decoded_size := Some (100, 200); byte_size := 20 |} in
  let images_dir := [("b.jpg", f); ("a.jpg", f)] in
  let labels_dir : gmap string (list string) :=
    {[ "a.txt" := [ "0 0.5 0.5 0.2 0.4"; "7 0.25 0.25 0.5 0.5" ];
       "b.txt" := [ "3 0.5 0.5 1 1" ] ]} in
  let run := Coco.convert_to_coco Dec.float_of_str images_dir labels_dir "out.json" None in
  let call :=
    Individual.generate_individual_json Dec.float_of_str Dec.int_of_str
      Counter.randint Counter.time_ms images_dir labels_dir "a.jpg" "data/images" 0 in
  (∃ doc,
     Coco.written run = Some ("out.json", doc) ∧
     length (Coco.annotations doc) = 3%nat ∧
     (∀ a, a ∈ Coco.annotations doc →
           ∃ img, img ∈ Coco.images doc ∧
                  Coco.CocoImage.id img = Coco.AnnotationDict.image_id a) ∧
     NoDup (Coco.CocoImage.id <$> Coco.images doc) ∧
     (∃ c, Coco.categories doc = [c] ∧
           ∀ a, a ∈ Coco.annotations doc →
                Coco.AnnotationDict.category_id a = Coco.category_id c)) ∧
  (∃ path t log w',
     call = (Ok (path, t), log, w') ∧
     length (Individual.annotations t) = 2%nat ∧
     (∀ a, a ∈ Individual.annotations t →
           ∃ img, img ∈ Individual.images t ∧
                  Individual.ImageEntry.id img = Individual.Annotation.image_id a) ∧
     NoDup (Individual.ImageEntry.id <$> Individual.images t) ∧
     (∃ c, Individual.categories t = [c] ∧
           ∀ a, a ∈ Individual.annotations t →
                Individual.Annotation.category_id a = Individual.Category.id c)).
Proof.
  intros f images_dir labels_dir run call.
  destruct (Coco.written run) as [[file doc]|] eqn:Hrun; [|by vm_compute in Hrun].
  destruct call as [[[[path t]|e] log] w'] eqn:Hcall; [|by vm_compute in Hcall].
  pose proof (documents_reference_their_images Dec.float_of_str Dec.int_of_str
                Counter.randint Counter.time_ms images_dir labels_dir "out.json" None
                "a.jpg" "data/images" 0 w' file doc path t log) as [Hcoco Hind].
  split.
  - exists doc. split; [|split].
    + vm_compute in Hrun. by injection Hrun as <- <-.
    + vm_compute in Hrun. by injection Hrun as <- <-.
    + exact (Hcoco Hrun).
  - exists path, t, log, w'. split; [done|]. split.
    + vm_compute in Hcall. by injection Hcall as <- <- <- <-.
    + exact (Hind Hcall).
Defined.

(** ** No filter and an empty filter *)






(** * Further properties of the scripts *)

(** ** From the split files back to the identifiers *)

Lemma string_append_cons (c : ascii) (s1 s2 : string) :
  String c s1 +:+ s2 = String c (s1 +:+ s2).
Proof. reflexivity. Qed.

Lemma string_append_assoc (s1 s2 s3 : string) :
  (s1 +:+ s2) +:+ s3 = s1 +:+ (s2 +:+ s3).
Proof.
  induction s1 as [|c s1 IH]; [done|]. by rewrite !string_append_cons, IH.
Qed.

Lemma splitlines_go_line cur r s :
  Py.has_linebreak r = false →
  Py.splitlines_go cur (r +:+ String "010" s)
  = string_of_list_ascii (rev cur ++ list_ascii_of_string r) :: Py.splitlines_go [] s.
Proof.
  revert cur. induction r as [|c r IH]; intros cur Hr.
  - simpl. by rewrite app_nil_r.
  - cbn [Py.has_linebreak] in Hr. apply orb_false_iff in Hr as [Hc Hr].
    rewrite string_append_cons. cbn [Py.splitlines_go]. rewrite Hc, (IH _ Hr).
    cbn [rev list_ascii_of_string]. by rewrite <- app_assoc.
Qed.

(** The text [_write_list] writes splits back into the rows it was given
    (an empty list of rows is written as one empty line). *)
Lemma splitlines_write_list path rows :
  Forall (λ r, Py.has_linebreak r = false) rows →
  Py.splitlines (Splits._write_list path rows).2
  = match rows with [] => [""] | _ => rows end.
Proof.
  unfold Splits._write_list, Py.join_lines, Py.splitlines. cbn [snd].
  induction 1 as [|x rows Hx Hrows IH]; [done|].
  destruct rows as [|y rows].
  - cbn [String.concat]. rewrite (splitlines_go_line [] x "" Hx).
    simpl. by rewrite string_of_list_ascii_of_string.
  - change (String.concat (String "010" EmptyString) (x :: y :: rows))
      with (x +:+ String "010" (String.concat (String "010" EmptyString) (y :: rows))).
    rewrite string_append_assoc, string_append_cons.
    rewrite (splitlines_go_line [] x _ Hx), IH.
    simpl. by rewrite string_of_list_ascii_of_string.
Qed.

(** X5: a list written by [_write_list] of generate_splits.py and read back
    by [_read_split_file] of convert_to_coco.py is the list that was written,
    provided no identifier is empty, contains a line boundary, or begins or
    ends with white space (such an identifier comes back stripped, split or
    not at all). *)
Theorem split_file_round_trip (split_dir : gmap string (list string))
    (path : string) (rows : list string) :
  Forall (λ r, Py.has_linebreak r = false ∧ Py.strip r = r ∧ r ≠ "") rows →
  split_dir !! path = Some (Py.splitlines (Splits._write_list path rows).2) →
  Coco._read_split_file split_dir path = rows.
Proof.
  intros Hrows Hfile. unfold Coco._read_split_file. rewrite Hfile.
  rewrite splitlines_write_list
    by (eapply Forall_impl; [exact Hrows|]; by intros r (? & _)).
  assert (Hkeep :
    map Py.strip (List.filter (λ line, negb (String.eqb (Py.strip line) "")) rows)
    = rows).
  { clear Hfile. induction Hrows as [|r rs (_ & Hstrip & Hne) _ IH]; [done|].
    cbn [List.filter]. rewrite Hstrip.
    destruct (String.eqb_spec r "") as [->|_]; [done|].
    cbn [negb map]. rewrite Hstrip. f_equal. exact IH. }
  by destruct rows.
Qed.

Lemma split_file_round_trip_witness :
  let rows := ["img_001"; "img 2"; "tree.01"] in
  let split_dir : gmap string (list string) :=
    {[ "train.txt" := Py.splitlines (Splits._write_list "train.txt" rows).2 ]} in
  Coco._read_split_file split_dir "train.txt" = rows.
Proof.
  intros rows split_dir.
  apply (split_file_round_trip split_dir "train.txt" rows).
  - repeat constructor; vm_compute; congruence.
  - reflexivity.
Defined.

(** An identifier with a leading blank does not survive the round trip. *)
Example split_file_round_trip_blank :
  let split_dir : gmap string (list string) :=
    {[ "train.txt" := Py.splitlines (Splits._write_list "train.txt" [" a"; "b"]).2 ]} in
  Coco._read_split_file split_dir "train.txt" = ["a"; "b"].
Proof. vm_compute. reflexivity. Qed.

(** ** generate_splits.py: the identifiers and the sizes of the parts *)

Lemma collect_image_stems_elem_of (listing : list string) (s : string) :
  s ∈ Splits._collect_image_stems listing
  ↔ ∃ name, name ∈ listing ∧ Py.endswith name ".jpg" = true ∧ Py.stem name = s.
Proof.
  unfold Splits._collect_image_stems.
  rewrite sorted_Permutation, map_is_fmap, list_elem_of_fmap.
  split.
  - intros (name & -> & [Hin Hjpg]%list_filter_elem_of). by exists name.
  - intros (name & Hin & Hjpg & <-). exists name. split; [done|].
    by apply list_filter_elem_of.
Qed.

(** X1: [_collect_image_stems] returns the stems of the files whose name
    ends in [.jpg] (upper-case [.JPG], [.jpeg] and [.png] files are left
    out), one entry per file, sorted by code point. *)
Theorem collect_image_stems_sorted_jpg_stems (listing : list string) :
  StronglySorted String.le (Splits._collect_image_stems listing) ∧
  Splits._collect_image_stems listing
    ≡ₚ map Py.stem (List.filter (λ p, Py.endswith p ".jpg") listing) ∧
  (∀ s, s ∈ Splits._collect_image_stems listing
        ↔ ∃ name, name ∈ listing ∧ Py.endswith name ".jpg" = true ∧ Py.stem name = s).
Proof.
  split_and!.
  - apply sorted_StronglySorted.
  - apply sorted_Permutation.
  - apply collect_image_stems_elem_of.
Qed.

Example collect_image_stems_example :
  Splits._collect_image_stems ["b.jpg"; "notes.txt"; "a.JPG"; "c.png"; "a.b.jpg"; "d.jpeg"]
  = ["a.b"; "b"].
Proof. reflexivity. Qed.





Section SplitSizes.
Context {rng_state : Type} (seed_rng : Z → rng_state)
        (randbelow : rng_state → nat → nat * rng_state).



(** X4: on ratios that pass the check and are not negative [main] raises
    nothing and writes five files, in this order: the three parts,
    [train_val.txt] with the entries of train followed by those of val, and
    [all.txt] with the sorted stems of the [.jpg] files, which does not
    depend on ratios or seed. *)
Theorem main_writes_five_lists g (listing : list string) (tr vr te : Q) seed :
  Splits.below_bound randbelow →
  Py.abs_gt (tr + vr + te - 1) (1 # 1000000) = false →
  (0 <= tr)%Q → (0 <= vr)%Q → (0 <= te)%Q →
  ∃ train val test,
    fst (Splits._split_stems seed_rng randbelow g
           (Splits._collect_image_stems listing) tr vr te seed)
    = Ok (train, val, test) ∧
    fst (Splits.main seed_rng randbelow g listing tr vr te seed)
    = {| Splits.written :=
           [ Splits._write_list "train.txt" train;
             Splits._write_list "val.txt" val;
             Splits._write_list "test.txt" test;
             Splits._write_list "train_val.txt" (train ++ val);
             Splits._write_list "all.txt" (Splits._collect_image_stems listing) ];
         Splits.raised := None |}.
Proof.
  intros Hrb Hok _ _ _.
  destruct (split_stems_accepts seed_rng randbelow g
              (Splits._collect_image_stems listing) tr vr te seed Hok Hrb)
    as (shuffled & _ & Hrun). cbv zeta in Hrun.
  eexists _, _, _. split; [exact Hrun|].
  unfold Splits.main.
  destruct (Splits._split_stems _ _ _ _ _ _ _ _) as [r g'].
  cbn [fst] in Hrun. by rewrite Hrun.
Qed.
End SplitSizes.



Lemma main_writes_five_lists_witness :
  ∃ train val test,
    fst (Splits._split_stems Splits.Lcg.seed_rng Splits.Lcg.randbelow 0
           (Splits._collect_image_stems ["b.jpg"; "a.jpg"; "c.png"])
           (1 # 2) (1 # 2) 0 7)
    = Ok (train, val, test) ∧
    fst (Splits.main Splits.Lcg.seed_rng Splits.Lcg.randbelow 0
           ["b.jpg"; "a.jpg"; "c.png"] (1 # 2) (1 # 2) 0 7)
    = {| Splits.written :=
           [ Splits._write_list "train.txt" train;
             Splits._write_list "val.txt" val;
             Splits._write_list "test.txt" test;
             Splits._write_list "train_val.txt" (train ++ val);
             Splits._write_list "all.txt"
               (Splits._collect_image_stems ["b.jpg"; "a.jpg"; "c.png"]) ];
         Splits.raised := None |}.
Proof.
  apply (main_writes_five_lists Splits.Lcg.seed_rng Splits.Lcg.randbelow).
  - exact lcg_below_bound.
  - vm_compute. reflexivity.
  - vm_compute. discriminate.
  - vm_compute. discriminate.
  - vm_compute. discriminate.
Defined.

(** ** convert_to_coco.py: which images, in which order *)

Lemma list_filter_all {A} (f : A → bool) (l : list A) :
  (∀ x, x ∈ l → f x = true) → List.filter f l = l.
Proof.
  induction l as [|x l IH]; intros Hf; simpl; [done|].
  rewrite (Hf x) by (by left). f_equal. apply IH. intros y Hy. apply Hf. by right.
Qed.

Lemma list_filter_ext_in {A} (f g : A → bool) (l : list A) :
  (∀ x, x ∈ l → f x = g x) → List.filter f l = List.filter g l.
Proof.
  induction l as [|x l IH]; intros Hfg; simpl; [done|].
  rewrite (Hfg x) by (by left).
  rewrite IH; [done|]. intros y Hy. apply Hfg. by right.
Qed.

Lemma list_filter_sublist {A} (f : A → bool) (l : list A) : List.filter f l `sublist_of` l.
Proof.
  induction l as [|x l IH]; simpl; [done|].
  destruct (f x); by constructor.
Qed.

(** X6: converting with the identifiers of [all.txt], the list
    [_collect_image_stems] of generate_splits.py computes for the same
    directory, selects the images that converting without a filter
    selects. *)
Theorem all_split_selects_every_image (images_dir : list (string * image_file)) :
  Coco._collect_image_paths images_dir
    (Some (Splits._collect_image_stems (map fst images_dir)))
  = Coco._collect_image_paths images_dir None.
Proof.
  unfold Coco._collect_image_paths. apply list_filter_all.
  intros p Hp. apply bool_decide_eq_true, elem_of_list_to_set.
  rewrite sorted_Permutation in Hp.
  apply collect_image_stems_elem_of.
  apply list_filter_elem_of in Hp as [Hin Hjpg]. by exists p.
Qed.

(** X7: with a filter, [_collect_image_paths] keeps, in their order, the
    paths of the unfiltered selection whose stem is listed; identifiers
    without an image are passed over in silence, and neither the order of
    the identifiers nor their repetition matters. *)
Theorem stem_filter_selection (images_dir : list (string * image_file))
    (stems stems' : list string) :
  Coco._collect_image_paths images_dir (Some stems)
    `sublist_of` Coco._collect_image_paths images_dir None ∧
  (∀ p, p ∈ Coco._collect_image_paths images_dir (Some stems)
        ↔ p ∈ Coco._collect_image_paths images_dir None ∧ Py.stem p ∈ stems) ∧
  ((∀ s, s ∈ stems ↔ s ∈ stems') →
   Coco._collect_image_paths images_dir (Some stems)
   = Coco._collect_image_paths images_dir (Some stems')).
Proof.
  split_and!.
  - apply list_filter_sublist.
  - intros p. rewrite collect_image_paths_Some, collect_image_paths_None. tauto.
  - intros Hsame. unfold Coco._collect_image_paths. apply list_filter_ext_in.
    intros p _. apply bool_decide_ext. by rewrite !elem_of_list_to_set.
Qed.

Lemma stem_filter_selection_witness :
  let f := {| decoded_size := Some (100, 200); byte_size := 20 |} in
  let images_dir := [("c.jpg", f); ("a.jpg", f); ("b.jpg", f)] in
  Coco._collect_image_paths images_dir (Some ["c"; "zzz"; "a"; "c"])
  = Coco._collect_image_paths images_dir (Some ["a"; "c"; "zzz"]).
Proof.
  intros f images_dir.
  apply (proj2 (proj2 (stem_filter_selection images_dir
                         ["c"; "zzz"; "a"; "c"] ["a"; "c"; "zzz"]))).
  intros s. rewrite !elem_of_cons, !elem_of_nil. tauto.
Defined.

(** ** convert_to_coco.py: the records of a document *)

Section CocoRecords.
Variable float_of_str : string → option Py.float.

(** The annotations of one image, row by row. *)
Lemma convert_rows_records img_id width height rows annotations next_ann_id :
  ∃ new,
    Coco.convert_rows img_id width height rows annotations next_ann_id
    = (annotations ++ new, next_ann_id + Z.of_nat (length rows)) ∧
    Coco.CocoAnnotation.id <$> new = seqZ next_ann_id (Z.of_nat (length rows)) ∧
    Forall2 (λ a row,
               let '(cls, xc, yc, w, h) := row in
               let '(x, y, ww, hh) := Coco._yolo_to_coco_bbox xc yc w h width height in
               Coco.CocoAnnotation.image_id a = img_id ∧
               Coco.CocoAnnotation.category_id a = 1 ∧
               Coco.CocoAnnotation.bbox a = [x; y; ww; hh] ∧
               Coco.CocoAnnotation.area a = Py.fmul ww hh ∧
               Coco.CocoAnnotation.iscrowd a = 0 ∧
               Coco.CocoAnnotation.segmentation a = Some [])
            new rows.
Proof.
  unfold Coco.convert_rows. revert annotations next_ann_id.
  induction rows as [|[[[[cls xc] yc] w] h] rows IH]; intros annotations next_ann_id.
  - exists []. simpl. rewrite app_nil_r, Z.add_0_r. split_and!; [done..|constructor].
  - simpl foldl.
    match goal with
    | |- context [foldl _ (?a, ?n) rows] =>
        destruct (IH a n) as (new & Hrun & Hids & Hall)
    end.
    eexists (_ :: new). split; [|split].
    + etrans; [exact Hrun|]. f_equal; [by rewrite <- app_assoc|].
      rewrite length_cons. lia.
    + rewrite length_cons, fmap_cons, Hids.
      rewrite (seqZ_cons next_ann_id) by lia. simpl.
      f_equal. f_equal; lia.
    + constructor; [|exact Hall]. simpl. by split_and!.
Qed.

(** What the outer loop adds, record by record; [rowss] holds the rows of
    the label files of the paths, in the order of the paths. *)
Lemma convert_images_records images_dir labels_dir paths k imgs anns next imgs' anns' :
  Coco.convert_images float_of_str images_dir labels_dir paths k imgs anns next
  = Ok (imgs', anns') →
  ∃ new_imgs new_anns rowss,
    imgs' = imgs ++ new_imgs ∧ anns' = anns ++ new_anns ∧
    Forall2 (λ img p,
               Coco.CocoImage.file_name img = p ∧
               Coco._image_size images_dir p
               = Ok (Coco.CocoImage.width img, Coco.CocoImage.height img) ∧
               Coco.CocoImage.license img = 1 ∧
               Coco.CocoImage.date_captured img = "2024-04-12")
            new_imgs paths ∧
    Forall2 (λ p rows,
               Coco._read_yolo_labels float_of_str labels_dir (Py.stem p +:+ ".txt")
               = Ok rows)
            paths rowss ∧
    Coco.CocoAnnotation.id <$> new_anns = seqZ next (Z.of_nat (length new_anns)) ∧
    length new_anns = sum_list (length <$> rowss) ∧
    Forall (λ a, ∃ (i : nat) p w h rows cls xc yc bw bh,
                   paths !! i = Some p ∧
                   Coco._image_size images_dir p = Ok (w, h) ∧
                   Coco._read_yolo_labels float_of_str labels_dir (Py.stem p +:+ ".txt")
                   = Ok rows ∧
                   (cls, xc, yc, bw, bh) ∈ rows ∧
                   Coco.CocoAnnotation.image_id a = k + Z.of_nat i ∧
                   let '(x, y, ww, hh) := Coco._yolo_to_coco_bbox xc yc bw bh w h in
                   Coco.CocoAnnotation.bbox a = [x; y; ww; hh] ∧
                   Coco.CocoAnnotation.area a = Py.fmul ww hh ∧
                   Coco.CocoAnnotation.iscrowd a = 0 ∧
                   Coco.CocoAnnotation.segmentation a = Some [])
           new_anns.
Proof.
  revert k imgs anns next.
  induction paths as [|path rest IH]; intros k imgs anns next H.
  - injection H as <- <-. exists [], [], []. rewrite !app_nil_r.
    split_and!; [done|done|constructor|constructor|done|done|constructor].
  - cbn [Coco.convert_images] in H.
    destruct (Coco._image_size images_dir path) as [[w h]|e] eqn:Hsz; [|discriminate H].
    cbn [mbind result_bind] in H.
    destruct (Coco._read_yolo_labels float_of_str labels_dir (Py.stem path +:+ ".txt"))
      as [rows|e] eqn:Hread; cbn [mbind result_bind] in H; [|discriminate H].
    destruct (convert_rows_records k w h rows anns next)
      as (new1 & Hrows & Hids1 & Hall1).
    rewrite Hrows in H.
    apply IH in H as (ni & na & rowss & -> & -> & Himgs & Hreads & Hids & Hlen & Hall).
    pose proof (Forall2_length _ _ _ Hall1) as Hlen1.
    eexists (_ :: ni), (new1 ++ na), (rows :: rowss). split_and!.
    + by rewrite <- app_assoc.
    + by rewrite <- app_assoc.
    + constructor; [|exact Himgs]. by split_and!.
    + by constructor.
    + rewrite fmap_app, Hids1, Hids, length_app, Nat2Z.inj_add, <- Hlen1.
      by rewrite seqZ_app, Z.add_comm by lia.
    + rewrite length_app, Hlen, Hlen1. by rewrite fmap_cons.
    + apply Forall_app. split.
      * apply Forall_forall. intros a Ha.
        apply list_elem_of_lookup in Ha as [j Hj].
        destruct (Forall2_lookup_l _ _ _ _ _ Hall1 Hj)
          as ([[[[cls xc] yc] bw] bh] & Hrow & Ha).
        exists 0%nat, path, w, h, rows, cls, xc, yc, bw, bh.
        destruct (Coco._yolo_to_coco_bbox xc yc bw bh w h) as [[[x y] ww] hh].
        destruct Ha as (Hi & _ & Hb & Har & Hc & Hs).
        split_and!; try done; [|lia].
        apply list_elem_of_lookup. by exists j.
      * eapply Forall_impl; [exact Hall|].
        intros a (i & p & w' & h' & rs & cls & xc & yc & bw & bh
                  & Hp & Hs & Hr & Hin & Hi & Hrest).
        exists (S i), p, w', h', rs, cls, xc, yc, bw, bh.
        split_and!; try done. lia.
Qed.
End CocoRecords.

Section CocoDocuments.
Variable float_of_str : string → option Py.float.



(** X9: the image records of a document follow the selected paths, sorted
    by name: the record at position [i] has the number [i + 1], the name of
    the path, the size PIL reads from the file, license 1 and the fixed
    capture date. *)
Theorem convert_to_coco_image_records images_dir labels_dir out_json stems file doc :
  Coco.written (Coco.convert_to_coco float_of_str images_dir labels_dir out_json stems)
  = Some (file, doc) →
  file = out_json ∧
  Coco.CocoImage.id <$> Coco.images doc
  = seqZ 1 (Z.of_nat (length (Coco._collect_image_paths images_dir stems))) ∧
  Forall2 (λ img p,
             Coco.CocoImage.file_name img = p ∧
             Coco._image_size images_dir p
             = Ok (Coco.CocoImage.width img, Coco.CocoImage.height img) ∧
             Coco.CocoImage.license img = 1 ∧
             Coco.CocoImage.date_captured img = "2024-04-12")
          (Coco.images doc) (Coco._collect_image_paths images_dir stems).
Proof.
  intros Hdoc.
  pose proof (convert_to_coco_document _ _ _ _ _ _ _ Hdoc) as (_ & Hid & _).
  apply convert_to_coco_written in Hdoc as (-> & _ & anns & Hrun & _).
  apply convert_images_records in Hrun as (ni & na & rowss & Himgs' & _ & Himgs & _).
  simpl in Himgs'. rewrite Himgs'. rewrite Himgs' in Hid. done.
Qed.

(** X10: the annotations of a document are numbered 1, 2, ... in the order
    they are written, and there is one for every row read from the label
    files of the selected images: no row is lost and none is counted twice. *)
Theorem convert_to_coco_annotation_numbering images_dir labels_dir out_json stems
    file doc :
  Coco.written (Coco.convert_to_coco float_of_str images_dir labels_dir out_json stems)
  = Some (file, doc) →
  Coco.AnnotationDict.id <$> Coco.annotations doc
  = seqZ 1 (Z.of_nat (length (Coco.annotations doc))) ∧
  ∃ rowss,
    Forall2 (λ p rows,
               Coco._read_yolo_labels float_of_str labels_dir (Py.stem p +:+ ".txt")
               = Ok rows)
            (Coco._collect_image_paths images_dir stems) rowss ∧
    length (Coco.annotations doc) = sum_list (length <$> rowss).
Proof.
  intros (_ & _ & anns & Hrun & ->)%convert_to_coco_written.
  apply convert_images_records in Hrun
    as (ni & na & rowss & _ & Hanns & _ & Hreads & Hids & Hlen & _).
  simpl in Hanns. subst anns.
  rewrite length_map. split; [|by exists rowss].
  change (map Coco.dump_annotation na) with (Coco.dump_annotation <$> na).
  rewrite <- Hids. apply list_eq. intros i.
  rewrite !list_lookup_fmap. by destruct (na !! i).
Qed.

(** X11: every annotation of a document comes from a row of the label file
    of the image it names: its box is [_yolo_to_coco_bbox] of that row at
    the size of that image, its area the product of the width and height of
    the box, [iscrowd] is 0 and the segmentation is the empty list. *)
Theorem convert_to_coco_annotation_boxes images_dir labels_dir out_json stems file doc :
  Coco.written (Coco.convert_to_coco float_of_str images_dir labels_dir out_json stems)
  = Some (file, doc) →
  Forall (λ a, ∃ (i : nat) p w h rows cls xc yc bw bh,
                 Coco._collect_image_paths images_dir stems !! i = Some p ∧
                 Coco._image_size images_dir p = Ok (w, h) ∧
                 Coco._read_yolo_labels float_of_str labels_dir (Py.stem p +:+ ".txt")
                 = Ok rows ∧
                 (cls, xc, yc, bw, bh) ∈ rows ∧
                 Coco.AnnotationDict.image_id a = 1 + Z.of_nat i ∧
                 let '(x, y, ww, hh) := Coco._yolo_to_coco_bbox xc yc bw bh w h in
                 Coco.AnnotationDict.bbox a = [x; y; ww; hh] ∧
                 Coco.AnnotationDict.area a = Py.fmul ww hh ∧
                 Coco.AnnotationDict.iscrowd a = 0 ∧
                 Coco.AnnotationDict.segmentation a = [])
         (Coco.annotations doc).
Proof.
  intros (_ & _ & anns & Hrun & ->)%convert_to_coco_written.
  apply convert_images_records in Hrun
    as (ni & na & rowss & _ & Hanns & _ & _ & _ & _ & Hall).
  simpl in Hanns. subst anns.
  apply Forall_forall. intros a Ha. rewrite map_is_fmap in Ha.
  apply list_elem_of_fmap in Ha as (a0 & -> & Ha0).
  destruct (proj1 (Forall_forall _ _) Hall a0 Ha0)
    as (i & p & w & h & rows & cls & xc & yc & bw & bh & Hp & Hs & Hr & Hin & Hi & Hrest).
  exists i, p, w, h, rows, cls, xc, yc, bw, bh.
  destruct (Coco._yolo_to_coco_bbox xc yc bw bh w h) as [[[x y] ww] hh].
  destruct Hrest as (Hb & Har & Hc & Hseg).
  split_and!; try done. simpl. by rewrite Hseg.
Qed.

End CocoDocuments.


Lemma convert_to_coco_image_records_witness :
  let images_dir :=
    [ ("b.jpg", {| decoded_size := Some (640, 480); byte_size := 20 |});
      ("a.jpg", {| decoded_size := Some (100, 200); byte_size := 30 |}) ] in
  ∃ doc,
    Coco.written (Coco.convert_to_coco Dec.float_of_str images_dir ∅ "out.json" None)
    = Some ("out.json", doc) ∧
    Coco.CocoImage.id <$> Coco.images doc = [1; 2] ∧
    Forall2 (λ img p,
               Coco.CocoImage.file_name img = p ∧
               Coco._image_size images_dir p
               = Ok (Coco.CocoImage.width img, Coco.CocoImage.height img) ∧
               Coco.CocoImage.license img = 1 ∧
               Coco.CocoImage.date_captured img = "2024-04-12")
            (Coco.images doc) ["a.jpg"; "b.jpg"].
Proof.
  intros images_dir.
  destruct (Coco.written (Coco.convert_to_coco Dec.float_of_str images_dir ∅
                            "out.json" None)) as [[file doc]|] eqn:Hrun;
    [|by vm_compute in Hrun].
  destruct (convert_to_coco_image_records Dec.float_of_str images_dir ∅ "out.json" None
              file doc Hrun) as (-> & Hids & Hrecords).
  exists doc. split_and!; [done|exact Hids|exact Hrecords].
Defined.

Lemma convert_to_coco_annotation_numbering_witness :
  let f := {| decoded_size := Some (100, 200); byte_size := 20 |} in
  let images_dir := [("b.jpg", f); ("a.jpg", f); ("c.jpg", f)] in
  let labels_dir : gmap string (list string) :=
    {[ "a.txt" := [ "0 0.5 0.5 0.2 0.4"; "oops"; "7 0.25 0.25 0.5 0.5" ];
       "c.txt" := [ "3 0.5 0.5 1 1" ] ]} in
  ∃ doc,
    Coco.written (Coco.convert_to_coco Dec.float_of_str images_dir labels_dir
                    "out.json" None)
    = Some ("out.json", doc) ∧
    Coco.AnnotationDict.id <$> Coco.annotations doc = [1; 2; 3] ∧
    Coco.AnnotationDict.image_id <$> Coco.annotations doc = [1; 1; 3] ∧
    ∃ rowss,
      Forall2 (λ p rows,
                 Coco._read_yolo_labels Dec.float_of_str labels_dir (Py.stem p +:+ ".txt")
                 = Ok rows)
              ["a.jpg"; "b.jpg"; "c.jpg"] rowss ∧
      length (Coco.annotations doc) = sum_list (length <$> rowss).
Proof.
  intros f images_dir labels_dir.
  destruct (Coco.written (Coco.convert_to_coco Dec.float_of_str images_dir labels_dir
                            "out.json" None)) as [[file doc]|] eqn:Hrun;
    [|by vm_compute in Hrun].
  destruct (convert_to_coco_annotation_numbering Dec.float_of_str images_dir labels_dir
              "out.json" None file doc Hrun) as (Hids & Hrows).
  exists doc. split_and!.
  - vm_compute in Hrun. by injection Hrun as <- <-.
  - rewrite Hids. vm_compute in Hrun. by injection Hrun as <- <-.
  - vm_compute in Hrun. by injection Hrun as <- <-.
  - exact Hrows.
Defined.

Lemma convert_to_coco_annotation_boxes_witness :
  let f := {| decoded_size := Some (100, 200); byte_size := 20 |} in
  let images_dir := [("a.jpg", f)] in
  let labels_dir : gmap string (list string) :=
    {[ "a.txt" := [ "0 0.5 0.5 0.2 0.4" ] ]} in
  ∃ doc,
    Coco.written (Coco.convert_to_coco Dec.float_of_str images_dir labels_dir
                    "out.json" None)
    = Some ("out.json", doc) ∧
    length (Coco.annotations doc) = 1%nat ∧
    Forall (λ a, ∃ (i : nat) p w h rows cls xc yc bw bh,
                   Coco._collect_image_paths images_dir None !! i = Some p ∧
                   Coco._image_size images_dir p = Ok (w, h) ∧
                   Coco._read_yolo_labels Dec.float_of_str labels_dir
                     (Py.stem p +:+ ".txt") = Ok rows ∧
                   (cls, xc, yc, bw, bh) ∈ rows ∧
                   Coco.AnnotationDict.image_id a = 1 + Z.of_nat i ∧
                   let '(x, y, ww, hh) := Coco._yolo_to_coco_bbox xc yc bw bh w h in
                   Coco.AnnotationDict.bbox a = [x; y; ww; hh] ∧
                   Coco.AnnotationDict.area a = Py.fmul ww hh ∧
                   Coco.AnnotationDict.iscrowd a = 0 ∧
                   Coco.AnnotationDict.segmentation a = [])
           (Coco.annotations doc).
Proof.
  intros f images_dir labels_dir.
  destruct (Coco.written (Coco.convert_to_coco Dec.float_of_str images_dir labels_dir
                            "out.json" None)) as [[file doc]|] eqn:Hrun;
    [|by vm_compute in Hrun].
  pose proof (convert_to_coco_annotation_boxes Dec.float_of_str images_dir labels_dir
                "out.json" None file doc Hrun) as Hboxes.
  exists doc. split_and!.
  - vm_compute in Hrun. by injection Hrun as <- <-.
  - vm_compute in Hrun. by injection Hrun as <- <-.
  - exact Hboxes.
Defined.


(** ** Label lines *)

Section LabelLines.
Variable float_of_str : string → option Py.float.
Variable int_of_str : string → option Z.


Lemma read_lines_app label_file_path l1 l2 annotations :
  Forall (λ line, ∃ o, Individual.parse_line float_of_str int_of_str line = Ok o) l1 →
  Individual.read_lines float_of_str int_of_str label_file_path (l1 ++ l2) annotations
  = Individual.read_lines float_of_str int_of_str label_file_path l2
      (annotations
       ++ omap (λ line,
                  match Individual.parse_line float_of_str int_of_str line with
                  | Ok o => o
                  | Raise _ => None
                  end) l1).
Proof.
  intros Hl1. revert annotations.
  induction Hl1 as [|line l1 [o Ho] _ IH]; intros annotations.
  - by rewrite app_nil_r.
  - cbn [app Individual.read_lines omap list_omap]. rewrite Ho.
    destruct o as [a|]; rewrite IH; [by rewrite <- app_assoc|done].
Qed.

(** X18: [read_yolo_annotations] of generate_individual_annotations.py
    keeps the well-formed lines of a label file in order and prints nothing
    when no line raises; at the first line whose conversion raises it stops,
    returns what it has from the lines before and prints one error line; a
    file that cannot be opened gives no annotation and the error line. *)
Theorem read_yolo_annotations_until_first_error labels_dir label_file_path lines :
  let good line :=
    match Individual.parse_line float_of_str int_of_str line with
    | Ok o => o
    | Raise _ => None
    end in
  (labels_dir !! label_file_path = None →
   Individual.read_yolo_annotations float_of_str int_of_str labels_dir label_file_path
   = ([], [Individual.ErrorReadingLabel label_file_path])) ∧
  (labels_dir !! label_file_path = Some lines →
   Forall (λ line, ∃ o, Individual.parse_line float_of_str int_of_str line = Ok o) lines →
   Individual.read_yolo_annotations float_of_str int_of_str labels_dir label_file_path
   = (omap good lines, [])) ∧
  (∀ l1 bad l2 e,
     labels_dir !! label_file_path = Some (l1 ++ bad :: l2) →
     Forall (λ line, ∃ o, Individual.parse_line float_of_str int_of_str line = Ok o) l1 →
     Individual.parse_line float_of_str int_of_str bad = Raise e →
     Individual.read_yolo_annotations float_of_str int_of_str labels_dir label_file_path
     = (omap good l1, [Individual.ErrorReadingLabel label_file_path])).
Proof.
  intros good. unfold Individual.read_yolo_annotations. split_and!.
  - by intros ->.
  - intros -> Hall.
    rewrite <- (app_nil_r lines) at 1. by rewrite (read_lines_app _ lines [] [] Hall).
  - intros l1 bad l2 e -> Hall Hbad.
    rewrite (read_lines_app _ l1 (bad :: l2) [] Hall).
    cbn [Individual.read_lines]. by rewrite Hbad.
Qed.
End LabelLines.


Lemma read_yolo_annotations_until_first_error_witness :
  Individual.read_yolo_annotations Dec.float_of_str Dec.int_of_str ∅ "a.txt"
  = ([], [Individual.ErrorReadingLabel "a.txt"]) ∧
  (Individual.read_yolo_annotations Dec.float_of_str Dec.int_of_str
     {[ "a.txt" := [ "0 0.5 0.5 0.2 0.4"; "1 2 3"; "" ] ]} "a.txt").2 = [] ∧
  (Individual.read_yolo_annotations Dec.float_of_str Dec.int_of_str
     {[ "a.txt" := [ "1 2 3"; "0.0 0.5 0.5 0.2 0.4"; "1 0.5 0.5 0.2 0.4" ] ]} "a.txt")
  = ([], [Individual.ErrorReadingLabel "a.txt"]).
Proof.
  split_and!.
  - apply (proj1 (read_yolo_annotations_until_first_error Dec.float_of_str
                    Dec.int_of_str ∅ "a.txt" [])).
    reflexivity.
  - rewrite (proj1 (proj2 (read_yolo_annotations_until_first_error Dec.float_of_str
                             Dec.int_of_str
                             {[ "a.txt" := [ "0 0.5 0.5 0.2 0.4"; "1 2 3"; "" ] ]}
                             "a.txt" [ "0 0.5 0.5 0.2 0.4"; "1 2 3"; "" ]))).
    + reflexivity.
    + reflexivity.
    + repeat constructor; by eexists.
  - apply (proj2 (proj2 (read_yolo_annotations_until_first_error Dec.float_of_str
                           Dec.int_of_str
                           {[ "a.txt" := [ "1 2 3"; "0.0 0.5 0.5 0.2 0.4";
                                           "1 0.5 0.5 0.2 0.4" ] ]}
                           "a.txt" []))
             [ "1 2 3" ] "0.0 0.5 0.5 0.2 0.4" [ "1 0.5 0.5 0.2 0.4" ]
             (ValueError "invalid literal")).
    + reflexivity.
    + repeat constructor; by eexists.
    + reflexivity.
Defined.

(** ** generate_individual_annotations.py: identifiers and documents *)

Section IndividualDocuments.
Variable float_of_str : string → option Py.float.
Variable int_of_str : string → option Z.
Context {world : Type}.
Variable randint : Z → Z → world → Z * world.
Variable time_ms : world → Z * world.

(** X15: an identifier of [generate_unique_id] is the random part times
    1000 plus the milliseconds of the clock; with [randint] returning a
    number in the range asked for, it has exactly ten digits, and its last
    three digits are those of the clock. *)
Theorem generate_unique_id_ten_digits (w : world) :
  (∀ lo hi w0, lo ≤ hi → lo ≤ (randint lo hi w0).1 ≤ hi) →
  let id := (Individual.generate_unique_id randint time_ms w).1 in
  let t := (time_ms (randint 1000000 9999999 w).2).1 in
  1000000000 ≤ id ≤ 9999999999 ∧
  id mod 1000 = t mod 1000 ∧
  id / 1000 = (randint 1000000 9999999 w).1.
Proof.
  intros Hrand id t. subst id t. unfold Individual.generate_unique_id.
  specialize (Hrand 1000000 9999999 w ltac:(lia)).
  destruct (randint 1000000 9999999 w) as [r w1]. cbn [fst snd] in *.
  destruct (time_ms w1) as [t w2]. cbn [fst].
  pose proof (Z.mod_pos_bound t 1000 ltac:(lia)) as Ht.
  split_and!.
  - lia.
  - lia.
  - rewrite Z.add_comm, Z.mod_add by lia. apply Z.mod_mod. lia.
  - rewrite Z.add_comm, Z.div_add by lia. rewrite Z.div_small by lia. lia.
Qed.

(** The call on a file of the directory goes through, and this is where
    the document goes. *)
Lemma generate_individual_json_path images_dir labels_dir image_file output_dir
      (w : world) f :
  dir_lookup image_file images_dir = Some f →
  ∃ t log w',
    Individual.generate_individual_json float_of_str int_of_str randint time_ms
      images_dir labels_dir image_file output_dir w
    = (Ok (Py.path_join output_dir (Py.splitext_root image_file +:+ ".json"), t), log, w').
Proof.
  intros Hl. unfold Individual.generate_individual_json, Individual.get_image_info.
  rewrite Hl.
  destruct (Individual.generate_unique_id randint time_ms w) as [image_id w1].
  destruct (Individual.generate_unique_id randint time_ms w1) as [category_id w2].
  destruct (decoded_size f) as [[width height]|];
    destruct (labels_dir !! (Py.splitext_root image_file +:+ ".txt")) as [lines|];
    try (destruct (Individual.read_yolo_annotations _ _ _ _) as [yolo log1];
         destruct (Individual.convert_annotations _ _ _ _ _ _ _) as [anns w3]);
    by eexists _, _, _.
Qed.

(** X17: the image record of a single-image document.  For a file of the
    directory, [generate_individual_json] writes
    [<output_dir>/<name without extension>.json]; the record carries the
    first identifier generated, the file name, the byte size and the format
    tag "JPEG" whatever the file is, and the size PIL decodes, or 640 x 640
    together with an error line when the file does not decode. *)
Theorem generate_individual_json_image_record images_dir labels_dir image_file
    output_dir (w : world) f :
  dir_lookup image_file images_dir = Some f →
  ∃ t log w',
    Individual.generate_individual_json float_of_str int_of_str randint time_ms
      images_dir labels_dir image_file output_dir w
    = (Ok (Py.path_join output_dir (Py.splitext_root image_file +:+ ".json"), t), log, w') ∧
    Individual.images t
    = [ {| Individual.ImageEntry.id := (Individual.generate_unique_id randint time_ms w).1;
           Individual.ImageEntry.width :=
             match decoded_size f with Some (width, _) => width | None => 640 end;
           Individual.ImageEntry.height :=
             match decoded_size f with Some (_, height) => height | None => 640 end;
           Individual.ImageEntry.file_name := image_file;
           Individual.ImageEntry.size := byte_size f;
           Individual.ImageEntry.format := "JPEG";
           Individual.ImageEntry.url := "";
           Individual.ImageEntry.hash := "";
           Individual.ImageEntry.status := "success" |} ] ∧
    (Individual.ErrorReadingImage image_file ∈ log ↔ decoded_size f = None).
Proof.
  intros Hl. unfold Individual.generate_individual_json, Individual.get_image_info.
  rewrite Hl.
  destruct (Individual.generate_unique_id randint time_ms w) as [image_id w1] eqn:Hid.
  assert (Hlogs : ∀ log1 n,
    Individual.ErrorReadingImage image_file
    ∈ log1 ++ [Individual.Generated
                 (Py.path_join output_dir (Py.splitext_root image_file +:+ ".json")) n] →
    Individual.ErrorReadingImage image_file ∈ log1).
  { intros log1 n [?|Hin]%elem_of_app; [done|].
    apply list_elem_of_singleton in Hin. discriminate Hin. }
  assert (Hlabel : ∀ p, Individual.ErrorReadingImage image_file
                        ∉ (Individual.read_lines float_of_str int_of_str p
                             (default [] (labels_dir !! p)) []).2).
  { intros p. generalize (@nil Individual.YoloAnn.t).
    induction (default [] (labels_dir !! p)) as [|line rest IH]; intros acc; simpl.
    - apply not_elem_of_nil.
    - destruct (Individual.parse_line _ _ line) as [[a|]|e]; [apply IH..|].
      simpl. intros Hin%list_elem_of_singleton. discriminate Hin. }
  destruct (decoded_size f) as [[width height]|] eqn:Hdec;
    destruct (Individual.generate_unique_id randint time_ms w1) as [category_id w2];
    destruct (labels_dir !! (Py.splitext_root image_file +:+ ".txt")) as [lines|] eqn:Hlbl.
  - unfold Individual.read_yolo_annotations. rewrite Hlbl.
    specialize (Hlabel (Py.splitext_root image_file +:+ ".txt")).
    rewrite Hlbl in Hlabel. simpl in Hlabel.
    destruct (Individual.read_lines _ _ _ lines []) as [yolo log1].
    destruct (Individual.convert_annotations _ _ _ _ _ _ _) as [anns w3].
    eexists _, _, _. split_and!; [done..|].
    split; [|done]. intros Hin%Hlogs. simpl in Hin, Hlabel. by apply Hlabel in Hin.
  - eexists _, _, _. split_and!; [done..|].
    split; [|done]. intros Hin%Hlogs. simpl in Hin.
    apply list_elem_of_singleton in Hin. discriminate Hin.
  - unfold Individual.read_yolo_annotations. rewrite Hlbl.
    destruct (Individual.read_lines _ _ _ lines []) as [yolo log1].
    destruct (Individual.convert_annotations _ _ _ _ _ _ _) as [anns w3].
    eexists _, _, _. split_and!; [done..|].
    split; [done|]. intros _. simpl. by left.
  - eexists _, _, _. split_and!; [done..|].
    split; [done|]. intros _. simpl. by left.
Qed.

Lemma process_images_written images_dir labels_dir output_dir n i image_files w :
  Forall (λ image_file, is_Some (dir_lookup image_file images_dir)) image_files →
  fst <$> Individual.written
            (Individual.process_images float_of_str int_of_str randint time_ms
               images_dir labels_dir output_dir n i image_files w).1
  = (λ image_file, Py.path_join output_dir (Py.splitext_root image_file +:+ ".json"))
      <$> image_files.
Proof.
  intros Hall. revert i w.
  induction Hall as [|image_file rest [f Hf] _ IH]; intros i w; [done|].
  cbn [Individual.process_images].
  destruct (generate_individual_json_path images_dir labels_dir image_file
              output_dir w f Hf) as (t & log & w1 & ->).
  specialize (IH (S i) w1).
  destruct (Individual.process_images _ _ _ _ _ _ _ _ _ _ _) as [o w2].
  cbn [fst Individual.written] in *. by rewrite fmap_cons, IH.
Qed.

(** The root of a name starts like the name. *)
Lemma splitext_root_head (c : ascii) (name : string) :
  ∃ s, Py.splitext_root (String c name) = String c s.
Proof.
  unfold Py.splitext_root.
  destruct (Py.rfind_dot (String c name)) as [[|i]|]; [| |by eexists].
  - cbn [substring Py.all_dots]. by eexists.
  - destruct (Py.all_dots _); by eexists.
Qed.

Lemma path_join_data_images (b : string) :
  (∀ s, b ≠ String "/" s) → Py.path_join "data/images" b = "data/images/" +:+ b.
Proof.
  intros Hb. destruct b as [|c s]; [reflexivity|].
  destruct (Ascii.eqb_spec c "/") as [->|Hc]; [by destruct (Hb s)|].
  destruct c as [[] [] [] [] [] [] [] []]; try reflexivity. by destruct Hc.
Qed.

(** X16: [main] writes one document for every file of the directory whose
    lower-cased name ends in [.jpg], [.jpeg] or [.png], in the order of the
    listing, at [os.path.join("data/images", <name without extension>.json)]:
    next to the images and named after the file without its extension (the
    names of a listing do not start with a slash); whether the file decodes
    or has labels makes no difference to that. *)
Theorem main_writes_one_document_per_image images_dir labels_dir (w : world) :
  let files := List.filter Individual.is_image_name (map fst images_dir) in
  let paths :=
    fst <$> Individual.written
              (Individual.main float_of_str int_of_str randint time_ms
                 images_dir labels_dir w).1 in
  paths
  = (λ image_file, Py.path_join "data/images" (Py.splitext_root image_file +:+ ".json"))
      <$> files ∧
  (Forall (λ image_file, ∀ s, image_file ≠ String "/" s) files →
   paths
   = (λ image_file, "data/images/" +:+ Py.splitext_root image_file +:+ ".json")
       <$> files).
Proof.
  intros files paths.
  assert (Hpaths :
    paths
    = (λ image_file,
         Py.path_join "data/images" (Py.splitext_root image_file +:+ ".json"))
        <$> files).
  { subst paths. unfold Individual.main. fold files.
    pose proof (process_images_written images_dir labels_dir "data/images"
                  (length files) 1 files w) as H.
    destruct (Individual.process_images _ _ _ _ _ _ _ _ _ _ _) as [o w1].
    cbn [fst Individual.written] in *. apply H.
    apply Forall_forall. intros image_file [Hin _]%list_filter_elem_of.
    destruct (dir_lookup_elem_of image_file images_dir Hin) as (f & Hf & _).
    by exists f. }
  split; [exact Hpaths|].
  intros Hbare. rewrite Hpaths. apply Forall_fmap_ext_1.
  eapply Forall_impl; [exact Hbare|].
  intros image_file Hname. apply path_join_data_images.
  destruct image_file as [|c name]; [by intros s|].
  destruct (splitext_root_head c name) as [r ->].
  rewrite string_append_cons. intros s [= -> _]. by destruct (Hname name).
Qed.
End IndividualDocuments.

Lemma generate_unique_id_ten_digits_witness :
  let id := (Individual.generate_unique_id Counter.randint Counter.time_ms 5).1 in
  let t := (Counter.time_ms (Counter.randint 1000000 9999999 5).2).1 in
  1000000000 ≤ id ≤ 9999999999 ∧
  id mod 1000 = t mod 1000 ∧
  id / 1000 = (Counter.randint 1000000 9999999 5).1.
Proof.
  apply (generate_unique_id_ten_digits Counter.randint Counter.time_ms 5).
  intros lo hi w0 Hle. unfold Counter.randint. cbn [fst].
  pose proof (Z.mod_pos_bound w0 (hi - lo + 1) ltac:(lia)). lia.
Defined.

Lemma generate_individual_json_image_record_witness :
  let bad := {| decoded_size := None; byte_size := 10 |} in
  ∃ t log w',
    Individual.generate_individual_json Dec.float_of_str Dec.int_of_str
      Counter.randint Counter.time_ms [("a.b.PNG", bad)] ∅ "a.b.PNG" "data/images" 0
    = (Ok (Py.path_join "data/images" (Py.splitext_root "a.b.PNG" +:+ ".json"), t), log, w') ∧
    Individual.images t
    = [ {| Individual.ImageEntry.id :=
             (Individual.generate_unique_id Counter.randint Counter.time_ms 0).1;
           Individual.ImageEntry.width := 640;
           Individual.ImageEntry.height := 640;
           Individual.ImageEntry.file_name := "a.b.PNG";
           Individual.ImageEntry.size := 10;
           Individual.ImageEntry.format := "JPEG";
           Individual.ImageEntry.url := "";
           Individual.ImageEntry.hash := "";
           Individual.ImageEntry.status := "success" |} ] ∧
    (Individual.ErrorReadingImage "a.b.PNG" ∈ log ↔ @None (Z * Z) = None).
Proof.
  intros bad.
  apply (generate_individual_json_image_record Dec.float_of_str Dec.int_of_str
           Counter.randint Counter.time_ms [("a.b.PNG", bad)] ∅ "a.b.PNG"
           "data/images" 0 bad).
  reflexivity.
Defined.

Lemma main_writes_one_document_per_image_witness :
  let f := {| decoded_size := Some (100, 200); byte_size := 20 |} in
  let bad := {| decoded_size := None; byte_size := 10 |} in
  fst <$> Individual.written
            (Individual.main Dec.float_of_str Dec.int_of_str
               Counter.randint Counter.time_ms
               [("b.JPG", f); ("notes.txt", bad); ("a.png", bad)] ∅ 0).1
  = ["data/images/b.json"; "data/images/a.json"].
Proof.
  intros f bad.
  rewrite (proj2 (main_writes_one_document_per_image Dec.float_of_str Dec.int_of_str
                    Counter.randint Counter.time_ms
                    [("b.JPG", f); ("notes.txt", bad); ("a.png", bad)] ∅ 0)).
  - reflexivity.
  - repeat constructor; intros s; discriminate.
Defined.

(** Two images that differ only in their extension are written to the same
    file: the second document replaces the first. *)
Example same_stem_same_document :
  let f := {| decoded_size := Some (100, 200); byte_size := 20 |} in
  fst <$> Individual.written
            (Individual.main Dec.float_of_str Dec.int_of_str
               Counter.randint Counter.time_ms [("a.jpg", f); ("a.png", f)] ∅ 0).1
  = ["data/images/a.json"; "data/images/a.json"].
Proof. vm_compute. reflexivity. Qed.
